(** * Camarcl flowershop backend: order placement, stock and low-stock alerts

    A shallow embedding of the Express handlers of [src/server/index.js]
    (and, in [Module Variant], of the variant of the product routes
    kept in [src/unnamed/part_000]) together with the properties of
    the order transaction, the stock counter and the notification helpers.

    Modelling conventions.
    - A request handler is a computation in the monad [M]: it threads a
      [world] (the MySQL tables, the open transaction of the pooled
      connection, the trace of statements sent to the database and the
      events given to [io.emit]) and either returns or throws, as the
      [async] functions of the source do.
    - Statements sent to the database always succeed: the only exceptions
      are the ones the handlers' own code raises.
    - Integers (ids, stock, quantities) are [Z].  Prices and money totals
      are JavaScript numbers whose arithmetic is kept abstract in the
      class [JsNumber], so nothing depends on the algebra of floating
      point addition.
    - Strings are Rocq [string]s of 8-bit characters; [trim] and the
      case-insensitive tests act on the ASCII range. *)

From Stdlib Require Import ZArith List String Ascii Bool Lia DecimalString.
From Stdlib Require Import Sorted Permutation.
Import ListNotations.

Local Open Scope string_scope.
Local Open Scope list_scope.
Local Open Scope Z_scope.

(** ** JavaScript strings *)

Module Js.

(** White space removed by [String.prototype.trim]: TAB, LF, VT, FF, CR, SP. *)
Definition isWhiteSpace (c : ascii) : bool :=
  let n := nat_of_ascii c in
  (((9 <=? n) && (n <=? 13)) || (n =? 32))%nat.

Fixpoint trimStart (s : string) : string :=
  match s with
  | EmptyString => EmptyString
  | String c s' => if isWhiteSpace c then trimStart s' else s
  end.

Fixpoint trimEnd (s : string) : string :=
  match s with
  | EmptyString => EmptyString
  | String c s' =>
      match trimEnd s' with
      | EmptyString => if isWhiteSpace c then EmptyString else String c EmptyString
      | t => String c t
      end
  end.

(** [s.trim()] *)
Definition trim (s : string) : string := trimEnd (trimStart s).

Definition toLowerCaseChar (c : ascii) : ascii :=
  let n := nat_of_ascii c in
  if ((65 <=? n) && (n <=? 90))%nat then ascii_of_nat (n + 32) else c.

(** [s.toLowerCase()] *)
Fixpoint toLowerCase (s : string) : string :=
  match s with
  | EmptyString => EmptyString
  | String c s' => String (toLowerCaseChar c) (toLowerCase s')
  end.

(** [s.startsWith(p)] *)
Fixpoint startsWith (s p : string) : bool :=
  match p, s with
  | EmptyString, _ => true
  | String _ _, EmptyString => false
  | String a p', String b s' => Ascii.eqb a b && startsWith s' p'
  end.

(** [s.includes(p)] *)
Fixpoint includes (s p : string) : bool :=
  startsWith s p ||
  match s with
  | EmptyString => false
  | String _ s' => includes s' p
  end.

(** [/p/i.test(s)] for a pattern [p] made of lower-case letters only. *)
Definition test_i (p s : string) : bool := includes (toLowerCase s) p.

(** No character of [p] is white space. *)
Fixpoint no_white_space (p : string) : bool :=
  match p with
  | EmptyString => true
  | String c p' => negb (isWhiteSpace c) && no_white_space p'
  end.

(** Decimal rendering of an integer inside a template literal. *)
Definition string_of_Z (z : Z) : string := NilZero.string_of_int (Z.to_int z).

(** A text-valued JavaScript value: a request field that may be absent,
    or a column that may be NULL. *)
Inductive text : Type :=
| undefined
| null
| str (s : string).

(** Truthiness, as tested by [!x], [x || y] and [if (x)]. *)
Definition truthy (t : text) : bool :=
  match t with
  | str s => negb (String.eqb s EmptyString)
  | _ => false
  end.

(** [a || b] *)
Definition or (a b : text) : text := if truthy a then a else b.

(** [`${t}`] *)
Definition template (t : text) : string :=
  match t with
  | undefined => "undefined"
  | null => "null"
  | str s => s
  end.

End Js.

(** ** JavaScript numbers used for money *)

(** The arithmetic the order handler performs on prices: the literal [0],
    [+], [*], and [Number(q)] for an integer quantity [q]. *)
Class JsNumber (num : Type) : Type := {
  num_zero : num;
  num_add : num -> num -> num;
  num_mul : num -> num -> num;
  Number : Z -> num
}.

(** Exact integer amounts (prices in minor units) are one instance. *)
#[export] Instance JsNumber_Z : JsNumber Z := {
  num_zero := 0;
  num_add := Z.add;
  num_mul := Z.mul;
  Number := fun z => z
}.

(** ** Exceptions and handler computations *)

Inductive exn : Type :=
| Error (message : string)
| ReferenceError (message : string)
| TypeError (message : string).

(** [err.message] *)
Definition message_of (e : exn) : string :=
  match e with
  | Error m | ReferenceError m | TypeError m => m
  end.

Inductive outcome (A : Type) : Type :=
| Return (a : A)
| Throw (e : exn).
Arguments Return {A} a.
Arguments Throw {A} e.

Section Model.

Context {num : Type} `{JsNumber num}.

(** *** Tables *)

(** Row of [products]. *)
Record product : Type := {
  p_id : Z;
  p_name : Js.text;
  p_price : num;
  p_stock : Z;
  p_category : Js.text;
  p_description : Js.text;
  p_image_url : Js.text
}.

(** Row of [orders]. *)
Record order : Type := {
  o_id : Z;
  o_user_name : Js.text;
  o_total : num;
  o_payment_mode : Js.text;
  o_status : Js.text
}.

(** Row of [order_items]. *)
Record order_item : Type := {
  oi_order_id : Z;
  oi_product_id : Z;
  oi_product_name : Js.text;
  oi_quantity : Z;
  oi_price : num;
  oi_total : num
}.

(** Row of [notifications]; also the payload of a [new_notification] event.
    Time stamps ([created_at]) are left out of every table. *)
Record notification : Type := {
  n_id : Z;
  n_type : string;
  n_reference_id : Z;
  n_message : string;
  n_isRead : Z
}.

(** The tables with their AUTO_INCREMENT counters. *)
Record database : Type := {
  products : list product;
  orders : list order;
  order_items : list order_item;
  notifications : list notification;
  next_product_id : Z;
  next_order_id : Z;
  next_notification_id : Z
}.

(** Statements and connection calls, as they reach the database. *)
Inductive sql : Type :=
| db_getConnection
| conn_beginTransaction
| conn_commit
| conn_rollback
| conn_release
| INSERT_INTO_notifications
| INSERT_INTO_products
| SELECT_FROM_products
| SELECT_FROM_products_WHERE_id (id : Z)
| SELECT_stock_name_FROM_products_WHERE_id (id : Z)
| UPDATE_products_WHERE_id (id : Z)
| SELECT_FROM_products_WHERE_id_IN (ids : list Z)
| INSERT_INTO_orders
| INSERT_INTO_order_items
| UPDATE_products_SET_stock_WHERE_id (stock id : Z)
| UPDATE_orders_SET_status_WHERE_id (status : string) (id : Z)
| SELECT_FROM_orders_WHERE_id (id : Z).

(** What a handler can observe and change. *)
Record world : Type := {
  db : database;
  transaction : option database;   (* tables as they were at [beginTransaction] *)
  trace : list sql;                (* statements issued so far, oldest first *)
  emitted : list notification      (* [io.emit("new_notification", _)] payloads *)
}.

Definition set_db (d : database) (w : world) : world :=
  {| db := d; transaction := transaction w; trace := trace w; emitted := emitted w |}.

Definition set_transaction (t : option database) (w : world) : world :=
  {| db := db w; transaction := t; trace := trace w; emitted := emitted w |}.

Definition log (q : sql) (w : world) : world :=
  {| db := db w; transaction := transaction w; trace := trace w ++ [q]; emitted := emitted w |}.

Definition push_emitted (n : notification) (w : world) : world :=
  {| db := db w; transaction := transaction w; trace := trace w; emitted := emitted w ++ [n] |}.

Definition set_products (ps : list product) (d : database) : database :=
  {| products := ps; orders := orders d; order_items := order_items d;
     notifications := notifications d; next_product_id := next_product_id d;
     next_order_id := next_order_id d; next_notification_id := next_notification_id d |}.

Definition set_orders (os : list order) (d : database) : database :=
  {| products := products d; orders := os; order_items := order_items d;
     notifications := notifications d; next_product_id := next_product_id d;
     next_order_id := next_order_id d; next_notification_id := next_notification_id d |}.

(** *** The monad of handlers *)

Definition M (A : Type) : Type := world -> outcome A * world.

Definition ret {A} (a : A) : M A := fun w => (Return a, w).

Definition throw {A} (e : exn) : M A := fun w => (Throw e, w).

Definition bind {A B} (m : M A) (k : A -> M B) : M B :=
  fun w =>
    match m w with
    | (Return a, w') => k a w'
    | (Throw e, w') => (Throw e, w')
    end.

(** [try { m } catch (err) { handler err }] *)
Definition try_catch {A} (m : M A) (handler : exn -> M A) : M A :=
  fun w =>
    match m w with
    | (Return a, w') => (Return a, w')
    | (Throw e, w') => handler e w'
    end.

(** [try { m } finally { f }] *)
Definition finally {A} (m : M A) (f : M unit) : M A :=
  fun w =>
    match m w with
    | (r, w') =>
        match f w' with
        | (Return _, w'') => (r, w'')
        | (Throw e, w'') => (Throw e, w'')
        end
    end.

(** A thrown value of a pure sub-computation enters the monad. *)
Definition lift {A} (r : outcome A) : M A := fun w => (r, w).

(** [await db.query(q)]: the statement [q] is logged and [run] is applied to
    the tables. *)
Definition query {A} (q : sql) (run : database -> A * database) : M A :=
  fun w =>
    let (a, d) := run (db w) in
    (Return a, set_db d (log q w)).

(** Evaluating an identifier that no enclosing scope declares. *)
Definition unbound {A} (identifier : string) : M A :=
  throw (ReferenceError (identifier ++ " is not defined")%string).

Notation "x <- m ;; k" := (bind m (fun x => k))
  (at level 61, m at next level, right associativity).
Notation "m ;;; k" := (bind m (fun _ => k))
  (at level 61, right associativity).

(** *** Requests and responses *)

(** [req.file] as left by the upload middleware. *)
Record upload : Type := {
  path : Js.text;
  secure_url : Js.text
}.

(** [req.body] of the product routes.  [b_price] and [b_stock] are the
    values of [Number(price)] and [Number(stock)], taken to be numeric. *)
Record product_body : Type := {
  b_name : Js.text;
  b_price : num;
  b_stock : Z;
  b_category : Js.text;
  b_description : Js.text;
  b_existingImageUrl : Js.text
}.

(** One element of [req.body.items]. *)
Record item : Type := {
  i_product_id : Z;
  i_quantity : Z
}.

(** [req.body] of [POST /orders]; [b_items = None] when the field is absent. *)
Record order_body : Type := {
  b_user_name : Js.text;
  b_payment_mode : Js.text;
  b_items : option (list item)
}.

(** A catalogue row as the read routes return it. *)
Record product_view : Type := {
  row : product;
  supply_alert : string
}.

Inductive json : Type :=
| json_error (error : string)
| json_message (message : string)
| json_order (message : string) (order_id : Z)
| json_product (message : string) (supply_alert : string) (product : product)
| json_view (v : product_view)
| json_views (vs : list product_view).

Record response : Type := {
  status : Z;
  body : json
}.

(** [res.json(b)] *)
Definition res_json (b : json) : response := {| status := 200; body := b |}.

(** [res.status(s).json(b)] *)
Definition res_status_json (s : Z) (b : json) : response := {| status := s; body := b |}.

(** *** Statements *)

(** An [undefined] parameter is sent as NULL. *)
Definition sql_param (t : Js.text) : Js.text :=
  match t with
  | Js.undefined => Js.null
  | _ => t
  end.

Definition INSERT_notification (type : string) (reference_id : Z) (message : string)
    (d : database) : Z * database :=
  let insertId := next_notification_id d in
  (insertId,
   {| products := products d; orders := orders d; order_items := order_items d;
      notifications := notifications d ++
        [{| n_id := insertId; n_type := type; n_reference_id := reference_id;
            n_message := message; n_isRead := 0 |}];
      next_product_id := next_product_id d; next_order_id := next_order_id d;
      next_notification_id := insertId + 1 |}).

Definition INSERT_product (name : Js.text) (price : num) (stock : Z)
    (category description image_url : Js.text) (d : database) : Z * database :=
  let insertId := next_product_id d in
  (insertId,
   {| products := products d ++
        [{| p_id := insertId; p_name := sql_param name; p_price := price; p_stock := stock;
            p_category := sql_param category; p_description := sql_param description;
            p_image_url := sql_param image_url |}];
      orders := orders d; order_items := order_items d; notifications := notifications d;
      next_product_id := insertId + 1; next_order_id := next_order_id d;
      next_notification_id := next_notification_id d |}).

Definition SELECT_products_WHERE_id (id : Z) (d : database) : list product * database :=
  (filter (fun p => p_id p =? id) (products d), d).

Definition SELECT_products_WHERE_id_IN (ids : list Z) (d : database) : list product * database :=
  (filter (fun p => existsb (Z.eqb (p_id p)) ids) (products d), d).

Definition UPDATE_product (name : Js.text) (price : num) (stock : Z)
    (category description image_url : Js.text) (id : Z) (d : database) : unit * database :=
  (tt, set_products
         (map (fun p =>
                 if p_id p =? id
                 then {| p_id := p_id p; p_name := sql_param name; p_price := price;
                         p_stock := stock; p_category := sql_param category;
                         p_description := sql_param description;
                         p_image_url := sql_param image_url |}
                 else p)
              (products d))
         d).

(** [SET stock=?] on one row. *)
Definition set_stock (stock : Z) (p : product) : product :=
  {| p_id := p_id p; p_name := p_name p; p_price := p_price p; p_stock := stock;
     p_category := p_category p; p_description := p_description p;
     p_image_url := p_image_url p |}.

Definition UPDATE_products_SET_stock (stock id : Z) (d : database) : unit * database :=
  (tt, set_products
         (map (fun p => if p_id p =? id then set_stock stock p else p) (products d))
         d).

Definition INSERT_order (user_name : Js.text) (total : num) (payment_mode : Js.text)
    (d : database) : Z * database :=
  let insertId := next_order_id d in
  (insertId,
   {| products := products d;
      orders := orders d ++
        [{| o_id := insertId; o_user_name := sql_param user_name; o_total := total;
            o_payment_mode := sql_param payment_mode; o_status := Js.str "pending" |}];
      order_items := order_items d; notifications := notifications d;
      next_product_id := next_product_id d; next_order_id := insertId + 1;
      next_notification_id := next_notification_id d |}).

Definition INSERT_order_items (values : list order_item) (d : database) : unit * database :=
  (tt,
   {| products := products d; orders := orders d;
      order_items := order_items d ++ values; notifications := notifications d;
      next_product_id := next_product_id d; next_order_id := next_order_id d;
      next_notification_id := next_notification_id d |}).

Definition UPDATE_orders_SET_status (status : string) (id : Z) (d : database) : unit * database :=
  (tt, set_orders
         (map (fun o =>
                 if o_id o =? id
                 then {| o_id := o_id o; o_user_name := o_user_name o; o_total := o_total o;
                         o_payment_mode := o_payment_mode o; o_status := Js.str status |}
                 else o)
              (orders d))
         d).

Definition SELECT_orders_WHERE_id (id : Z) (d : database) : list order * database :=
  (filter (fun o => o_id o =? id) (orders d), d).

(** *** Transactions of the pooled connection *)

Definition getConnection : M unit := fun w => (Return tt, log db_getConnection w).

Definition beginTransaction : M unit :=
  fun w => (Return tt, set_transaction (Some (db w)) (log conn_beginTransaction w)).

Definition commit : M unit :=
  fun w => (Return tt, set_transaction None (log conn_commit w)).

Definition rollback : M unit :=
  fun w =>
    let w' := log conn_rollback w in
    match transaction w' with
    | Some d => (Return tt, set_transaction None (set_db d w'))
    | None => (Return tt, w')
    end.

Definition release : M unit := fun w => (Return tt, log conn_release w).

(** *** Helpers *)

(** [io.emit("new_notification", n)] *)
Definition io_emit (n : notification) : M unit := fun w => (Return tt, push_emitted n w).

Definition sendNotification (type : string) (reference_id : Z) (message : string) : M unit :=
  try_catch
    (insertId <- query INSERT_INTO_notifications
                   (INSERT_notification type reference_id message) ;;
     io_emit {| n_id := insertId; n_type := type; n_reference_id := reference_id;
                n_message := message; n_isRead := 0 |})
    (fun err => ret tt).

Definition checkLowStock (id stock : Z) (name : Js.text) : M unit :=
  let numericStock := stock in
  if numericStock <? 20
  then sendNotification "low on supplies" id
         ("Product '" ++ Js.template name ++ "' is low on supplies!")%string
  else ret tt.

Definition orderStatusNotification (order : order) : M unit :=
  match o_status order with
  | Js.str s =>
      if String.eqb s EmptyString then ret tt
      else
        let status := Js.toLowerCase s in
        let message :=
          if Js.includes status "delivered"
          then ("Order #" ++ Js.string_of_Z (o_id order) ++ " for "
                 ++ Js.template (o_user_name order) ++ " has been delivered!")%string
          else if Js.includes status "cancelled" || Js.includes status "returned"
          then ("Order #" ++ Js.string_of_Z (o_id order) ++ " for "
                 ++ Js.template (o_user_name order) ++ " has been cancelled/returned!")%string
          else EmptyString in
        if String.eqb message EmptyString then ret tt
        else sendNotification "status" (o_id order) message
  | _ => ret tt
  end.

(** *** Product routes *)

(** [app.post("/products", upload.single("image"), ...)].  The object given
    to [res.json] reads [supplyAlert], which this handler never declares
    (the only declaration is the [const] local to the PUT handler). *)
Definition post_products (body : product_body) (file : option upload) : M response :=
  try_catch
    (let name := b_name body in
     let category := b_category body in
     let description := b_description body in
     match file with
     | None => ret (res_status_json 400 (json_error "Product image is required"))
     | Some file =>
         let stock := b_stock body in
         let price := b_price body in
         let image_url := Js.or (path file) (secure_url file) in
         insertId <- query INSERT_INTO_products
                       (INSERT_product name price stock category description image_url) ;;
         (if stock <? 20 then checkLowStock insertId stock name else ret tt) ;;;
         supplyAlert <- unbound "supplyAlert" ;;
         ret (res_json
                (json_product "Product added successfully" supplyAlert
                   {| p_id := insertId; p_name := name; p_price := price; p_stock := stock;
                      p_category := category; p_description := description;
                      p_image_url := image_url |}))
     end)
    (fun err => ret (res_status_json 500 (json_error "Failed to add product"))).

(** [p.stock < 20 ? "LOW ON SUPPLIES" : "OK"] *)
Definition with_supply_alert (p : product) : product_view :=
  {| row := p; supply_alert := if p_stock p <? 20 then "LOW ON SUPPLIES" else "OK" |}.

(** [app.get("/products", ...)].  Rows come in table order: [created_at],
    by which the statement sorts, is not part of the model. *)
Definition get_products : M response :=
  try_catch
    (rows <- query SELECT_FROM_products (fun d => (products d, d)) ;;
     let products := map with_supply_alert rows in
     ret (res_json (json_views products)))
    (fun err => ret (res_status_json 500 (json_error "Failed to load products"))).

(** [app.get("/products/:id", ...)] *)
Definition get_products_id (id : Z) : M response :=
  try_catch
    (rows <- query (SELECT_FROM_products_WHERE_id id) (SELECT_products_WHERE_id id) ;;
     match rows with
     | [] => ret (res_status_json 404 (json_error "Product not found"))
     | product :: _ => ret (res_json (json_view (with_supply_alert product)))
     end)
    (fun err => ret (res_status_json 500 (json_error "Failed to load product"))).

(** [app.put("/products/:id", upload.single("image"), ...)] *)
Definition put_products_id (id : Z) (body : product_body) (file : option upload) : M response :=
  try_catch
    (let name := b_name body in
     let category := b_category body in
     let description := b_description body in
     let existingImageUrl := b_existingImageUrl body in
     let stock := b_stock body in
     let price := b_price body in
     prevRows <- query (SELECT_stock_name_FROM_products_WHERE_id id)
                   (SELECT_products_WHERE_id id) ;;
     match prevRows with
     | [] => ret (res_status_json 404 (json_error "Product not found"))
     | prev :: _ =>
         let prevStock := p_stock prev in
         let prevName := p_name prev in
         let image_url :=
           match file with
           | Some file => Js.or (path file) (secure_url file)
           | None => existingImageUrl
           end in
         query (UPDATE_products_WHERE_id id)
           (UPDATE_product name price stock category description image_url id) ;;;
         let productName := Js.or name prevName in
         (if (stock <? 20) && (prevStock >=? 20)
          then checkLowStock id stock productName
          else ret tt) ;;;
         let supplyAlert := if stock <? 20 then "LOW ON SUPPLIES" else "OK" in
         ret (res_json
                (json_product "Product updated successfully" supplyAlert
                   {| p_id := id; p_name := name; p_price := price; p_stock := stock;
                      p_category := category; p_description := description;
                      p_image_url := image_url |}))
     end)
    (fun err => ret (res_status_json 500 (json_error "Failed to update product"))).

(** *** Order routes *)

(** One element of [orderItemsData]. *)
Record order_item_data : Type := {
  d_product_id : Z;
  d_product_name : Js.text;
  d_quantity : Z;
  d_price : num;
  d_total : num
}.

(** [items.map(item => { ... })] of [POST /orders]: the callback looks the
    product up among the selected rows, throws on a missing product or on a
    quantity above its stock, and adds the line total to [orderTotal].  The
    result carries the final [orderTotal].  [Number(product.price)] is
    [p_price], the column being read as a number. *)
Fixpoint items_map (products : list product) (items : list item) (orderTotal : num)
    : outcome (list order_item_data * num) :=
  match items with
  | [] => Return ([], orderTotal)
  | item :: rest =>
      match find (fun p => p_id p =? i_product_id item) products with
      | None =>
          Throw (Error ("Product " ++ Js.string_of_Z (i_product_id item) ++ " not found")%string)
      | Some product =>
          if i_quantity item >? p_stock product
          then Throw (Error ("Not enough stock for " ++ Js.template (p_name product))%string)
          else
            let total := num_mul (p_price product) (Number (i_quantity item)) in
            match items_map products rest (num_add orderTotal total) with
            | Throw e => Throw e
            | Return (data, orderTotal') =>
                Return ({| d_product_id := p_id product; d_product_name := p_name product;
                           d_quantity := i_quantity item; d_price := p_price product;
                           d_total := total |} :: data,
                        orderTotal')
            end
      end
  end.

(** [for (const item of orderItemsData) { ... UPDATE products SET stock ... }] *)
Fixpoint update_stock (products : list product) (orderItemsData : list order_item_data)
    : M unit :=
  match orderItemsData with
  | [] => ret tt
  | item :: rest =>
      match find (fun p => p_id p =? d_product_id item) products with
      | None => throw (TypeError "Cannot read properties of undefined (reading 'stock')")
      | Some product =>
          query (UPDATE_products_SET_stock_WHERE_id (p_stock product - d_quantity item)
                   (p_id product))
            (UPDATE_products_SET_stock (p_stock product - d_quantity item) (p_id product)) ;;;
          update_stock products rest
      end
  end.

(** [!items?.length] *)
Definition no_items (items : option (list item)) : bool :=
  match items with
  | None => true
  | Some l => (List.length l =? 0)%nat
  end.

(** [app.post("/orders", ...)] *)
Definition post_orders (body : order_body) : M response :=
  let user_name := b_user_name body in
  let payment_mode := b_payment_mode body in
  if negb (Js.truthy user_name) || negb (Js.truthy payment_mode) || no_items (b_items body)
  then ret (res_status_json 400 (json_error "Missing required fields or items"))
  else
    let items := match b_items body with Some l => l | None => [] end in
    getConnection ;;;
    finally
      (try_catch
         (beginTransaction ;;;
          let productIds := map i_product_id items in
          products <- query (SELECT_FROM_products_WHERE_id_IN productIds)
                        (SELECT_products_WHERE_id_IN productIds) ;;
          mapped <- lift (items_map products items num_zero) ;;
          let orderItemsData := fst mapped in
          let orderTotal := snd mapped in
          orderId <- query INSERT_INTO_orders (INSERT_order user_name orderTotal payment_mode) ;;
          let orderItemsValues :=
            map (fun i => {| oi_order_id := orderId; oi_product_id := d_product_id i;
                             oi_product_name := d_product_name i; oi_quantity := d_quantity i;
                             oi_price := d_price i; oi_total := d_total i |})
                orderItemsData in
          query INSERT_INTO_order_items (INSERT_order_items orderItemsValues) ;;;
          update_stock products orderItemsData ;;;
          commit ;;;
          ret (res_json (json_order "Order placed!" orderId)))
         (fun err =>
            rollback ;;;
            ret (res_status_json 500 (json_error (message_of err)))))
      release.

(** The status normalisation of [PUT /orders/:id/status]: each test reads
    the value the previous assignment left. *)
Definition normalizedStatus (status : string) : string :=
  let normalizedStatus := Js.trim status in
  let normalizedStatus :=
    if Js.test_i "cancelled" normalizedStatus then "Cancelled/Returned" else normalizedStatus in
  let normalizedStatus :=
    if Js.test_i "delivered" normalizedStatus then "Delivered" else normalizedStatus in
  let normalizedStatus :=
    if Js.test_i "pending" normalizedStatus then "Pending" else normalizedStatus in
  normalizedStatus.

(** [app.put("/orders/:id/status", ...)]; [status] is [req.body.status]. *)
Definition put_orders_id_status (id : Z) (status : Js.text) : M response :=
  match status with
  | Js.str s =>
      if String.eqb s EmptyString
      then ret (res_status_json 400 (json_error "Status is required"))
      else
        try_catch
          (let normalizedStatus := normalizedStatus s in
           query (UPDATE_orders_SET_status_WHERE_id normalizedStatus id)
             (UPDATE_orders_SET_status normalizedStatus id) ;;;
           results <- query (SELECT_FROM_orders_WHERE_id id) (SELECT_orders_WHERE_id id) ;;
           (match results with
            | order :: _ => orderStatusNotification order
            | [] => ret tt
            end) ;;;
           ret (res_json (json_message "Status updated!")))
          (fun err => ret (res_status_json 500 (json_error (message_of err))))
  | _ => ret (res_status_json 400 (json_error "Status is required"))
  end.

(** *** The application *)

Inductive request : Type :=
| POST_products (body : product_body) (file : option upload)
| GET_products
| GET_products_id (id : Z)
| PUT_products_id (id : Z) (body : product_body) (file : option upload)
| POST_orders (body : order_body)
| PUT_orders_id_status (id : Z) (status : Js.text).

Definition app (r : request) : M response :=
  match r with
  | POST_products body file => post_products body file
  | GET_products => get_products
  | GET_products_id id => get_products_id id
  | PUT_products_id id body file => put_products_id id body file
  | POST_orders body => post_orders body
  | PUT_orders_id_status id status => put_orders_id_status id status
  end.

(** The world after the requests [rs] have been served one after the other. *)
Fixpoint serve (rs : list request) (w : world) : world :=
  match rs with
  | [] => w
  | r :: rs' => serve rs' (snd (app r w))
  end.

End Model.

Arguments product : clear implicits.
Arguments order : clear implicits.
Arguments order_item : clear implicits.
Arguments database : clear implicits.
Arguments world : clear implicits.
Arguments M : clear implicits.
Arguments product_body : clear implicits.
Arguments product_view : clear implicits.
Arguments json : clear implicits.
Arguments response : clear implicits.
Arguments order_item_data : clear implicits.
Arguments request : clear implicits.

(** ** The variant of the product routes *)

(** The create and update handlers as the first program of
    [src/unnamed/part_000] has them: they validate the form themselves,
    answer without a supply alert, and alert on every write of a low stock. *)
Module Variant.

(** A numeric form field, with what [parseFloat] or [parseInt] makes of it:
    [absent] when the raw field is falsy (missing or empty), [not_a_number]
    when it is present and parses to NaN. *)
Inductive field (A : Type) : Type :=
| absent
| not_a_number
| number (a : A).
Arguments absent {A}.
Arguments not_a_number {A}.
Arguments number {A} a.

Section Model.

Context {num : Type} `{JsNumber num}.

Notation "x <- m ;; k" := (bind m (fun x => k))
  (at level 61, m at next level, right associativity).
Notation "m ;;; k" := (bind m (fun _ => k))
  (at level 61, right associativity).

Record product_body : Type := {
  b_name : Js.text;
  b_price : field num;
  b_stock : field Z;
  b_category : Js.text;
  b_description : Js.text
}.

Inductive json : Type :=
| json_error (error : string)
| json_product (message : string) (product : product num).

Record response : Type := {
  status : Z;
  body : json
}.

(** [app.post("/products", upload.single("image"), ...)] *)
Definition post_products (body : product_body) (file : option upload) : M num response :=
  try_catch
    (let name := b_name body in
     let category := b_category body in
     let description := b_description body in
     match Js.truthy name, b_price body, b_stock body with
     | false, _, _ | _, absent, _ | _, _, absent =>
         ret {| status := 400; body := json_error "Name, price, and stock are required" |}
     | true, price, stock =>
         match file with
         | None => ret {| status := 400; body := json_error "Product image is required" |}
         | Some file =>
             match price, stock with
             | number priceNum, number stockNum =>
                 let image_url := path file in
                 insertId <- query INSERT_INTO_products
                               (INSERT_product name priceNum stockNum (Js.or category Js.null)
                                  (Js.or description Js.null) image_url) ;;
                 (if stockNum <? 20
                  then sendNotification "low on supplies" insertId
                         ("Product '" ++ Js.template name ++ "' is low on supplies!")%string
                  else ret tt) ;;;
                 ret {| status := 200;
                        body := json_product "Product added successfully!"
                                  {| p_id := insertId; p_name := name; p_price := priceNum;
                                     p_stock := stockNum;
                                     p_category := Js.or category Js.null;
                                     p_description := Js.or description Js.null;
                                     p_image_url := image_url |} |}
             | _, _ =>
                 ret {| status := 400;
                        body := json_error "Price and stock must be valid numbers" |}
             end
         end
     end)
    (fun err => ret {| status := 500; body := json_error "Failed to add product" |}).

(** [field ? parse(field) : product.column] *)
Definition or_column {A : Type} (f : field A) (column : A) : field A :=
  match f with
  | absent => number column
  | _ => f
  end.

(** [app.put("/products/:id", upload.single("image"), ...)] *)
Definition put_products_id (id : Z) (body : product_body) (file : option upload)
    : M num response :=
  try_catch
    (let name := b_name body in
     let category := b_category body in
     let description := b_description body in
     existing <- query (SELECT_FROM_products_WHERE_id id) (SELECT_products_WHERE_id id) ;;
     match existing with
     | [] => ret {| status := 404; body := json_error "Product not found" |}
     | product :: _ =>
         match or_column (b_price body) (p_price product),
               or_column (b_stock body) (p_stock product) with
         | number priceNum, number stockNum =>
             let image_url :=
               match file with
               | Some file => path file
               | None => p_image_url product
               end in
             query (UPDATE_products_WHERE_id id)
               (UPDATE_product (Js.or name (p_name product)) priceNum stockNum
                  (Js.or category (p_category product))
                  (Js.or description (p_description product)) image_url id) ;;;
             (if stockNum <? 20
              then sendNotification "low on supplies" id
                     ("Product '" ++ Js.template (Js.or name (p_name product))
                        ++ "' is low on supplies!")%string
              else ret tt) ;;;
             ret {| status := 200;
                    body := json_product "Product updated successfully!"
                              {| p_id := id; p_name := Js.or name (p_name product);
                                 p_price := priceNum; p_stock := stockNum;
                                 p_category := Js.or category (p_category product);
                                 p_description := Js.or description (p_description product);
                                 p_image_url := image_url |} |}
         | _, _ =>
             ret {| status := 400; body := json_error "Price and stock must be valid numbers" |}
         end
     end)
    (fun err => ret {| status := 500; body := json_error "Failed to update product" |}).

End Model.

Arguments product_body : clear implicits.
Arguments json : clear implicits.
Arguments response : clear implicits.

End Variant.

(** ** Vocabulary of the properties *)

Section Vocabulary.

Context {num : Type} `{JsNumber num}.

(** The row and payload [sendNotification] produces in world [w]. *)
Definition notification_in (w : world num) (type : string) (reference_id : Z)
    (message : string) : notification :=
  {| n_id := next_notification_id (db w); n_type := type; n_reference_id := reference_id;
     n_message := message; n_isRead := 0 |}.

(** The low-stock alert [checkLowStock id _ name] sends in world [w]. *)
Definition low_stock_alert (w : world num) (id : Z) (name : Js.text) : notification :=
  notification_in w "low on supplies" id
    ("Product '" ++ Js.template name ++ "' is low on supplies!")%string.

(** The product a line refers to, in the catalogue [ps]. *)
Definition product_of (ps : list (product num)) (it : item) : option (product num) :=
  find (fun p => p_id p =? i_product_id it) ps.

(** The stock check fails for line [it]: its product does not exist, or the
    quantity asked exceeds the product's stock. *)
Definition stock_check_fails (ps : list (product num)) (it : item) : Prop :=
  match product_of ps it with
  | None => True
  | Some p => i_quantity it > p_stock p
  end.

(** The error a failing line is answered with. *)
Definition stock_error (ps : list (product num)) (it : item) : string :=
  match product_of ps it with
  | None => ("Product " ++ Js.string_of_Z (i_product_id it) ++ " not found")%string
  | Some p => ("Not enough stock for " ++ Js.template (p_name p))%string
  end.

(** The line of [orderItemsData] made from line [it] and its product [p]. *)
Definition data_of (p : product num) (it : item) : order_item_data num :=
  {| d_product_id := p_id p; d_product_name := p_name p; d_quantity := i_quantity it;
     d_price := p_price p; d_total := num_mul (p_price p) (Number (i_quantity it)) |}.

(** The row of [order_items] stored for a line of [orderItemsData]. *)
Definition row_of (orderId : Z) (i : order_item_data num) : order_item num :=
  {| oi_order_id := orderId; oi_product_id := d_product_id i;
     oi_product_name := d_product_name i; oi_quantity := d_quantity i;
     oi_price := d_price i; oi_total := d_total i |}.

(** The catalogue [ps] after the stock statement of one line: the stock
    written is computed from the rows [selected] at the start. *)
Definition restock (selected : list (product num)) (ps : list (product num))
    (i : order_item_data num) : list (product num) :=
  match find (fun p => p_id p =? d_product_id i) selected with
  | Some product =>
      map (fun p =>
             if p_id p =? p_id product
             then set_stock (p_stock product - d_quantity i) p
             else p)
          ps
  | None => ps
  end.

(** The sum of the line totals, added in line order from [0]. *)
Definition sum_totals (totals : list num) : num := fold_left num_add totals num_zero.

(** The quantity the lines [items] order of product [id], all lines together. *)
Definition ordered_quantity (id : Z) (items : list item) : Z :=
  fold_right Z.add 0
    (map i_quantity (filter (fun it => i_product_id it =? id) items)).

(** The required-fields test of [POST /orders]. *)
Definition fields_present (body : order_body) : bool :=
  Js.truthy (b_user_name body) && Js.truthy (b_payment_mode body)
  && negb (no_items (b_items body)).

(** The world a rolled-back order leaves: the tables as they were, and the
    five calls made on the connection. *)
Definition rolled_back (items : list item) (w : world num) : world num :=
  {| db := db w; transaction := None;
     trace := trace w ++ [db_getConnection; conn_beginTransaction;
                          SELECT_FROM_products_WHERE_id_IN (map i_product_id items);
                          conn_rollback; conn_release];
     emitted := emitted w |}.


(** No product has a negative stock. *)
Definition stock_nonneg (d : database num) : Prop :=
  Forall (fun p => 0 <= p_stock p) (products d).

(** A product create or update submits a stock that is not negative. *)
Definition submits_nonneg_stock (r : request num) : Prop :=
  match r with
  | POST_products body _ => 0 <= b_stock body
  | PUT_products_id _ body _ => 0 <= b_stock body
  | _ => True
  end.


(** The status code a handler answers with (0 when it throws). *)
Definition status_of (r : outcome (response num)) : Z :=
  match r with
  | Return r => status r
  | Throw _ => 0
  end.

End Vocabulary.

(** ** Sample data *)

Module Sample.

(** A catalogue of one product, priced 10, with the given stock. *)
Definition rose (stock : Z) : product Z :=
  {| p_id := 1; p_name := Js.str "Rose"; p_price := 10; p_stock := stock;
     p_category := Js.str "Bouquet"; p_description := Js.null;
     p_image_url := Js.str "https://res.cloudinary.com/demo/products/rose.png" |}.

Definition shop (stock : Z) : world Z :=
  {| db := {| products := [rose stock]; orders := []; order_items := [];
              notifications := []; next_product_id := 2; next_order_id := 1;
              next_notification_id := 1 |};
     transaction := None; trace := []; emitted := [] |}.

Definition line (product_id quantity : Z) : item :=
  {| i_product_id := product_id; i_quantity := quantity |}.

(** [{ user_name: "Ana", payment_mode: "cash", items: lines }] *)
Definition order_of (lines : list item) : order_body :=
  {| b_user_name := Js.str "Ana"; b_payment_mode := Js.str "cash"; b_items := Some lines |}.

(** The form of a product create or update, with the given stock. *)
Definition form (name : string) (stock : Z) : product_body Z :=
  {| b_name := Js.str name; b_price := 10; b_stock := stock; b_category := Js.str "Bouquet";
     b_description := Js.undefined; b_existingImageUrl := Js.undefined |}.

Definition image : upload :=
  {| path := Js.str "https://res.cloudinary.com/demo/products/new.png";
     secure_url := Js.undefined |}.

End Sample.

(** ** The remaining routes of [index.js] *)

(** [s.split(sep)] for a one-character separator, and the public id the
    product deletion derives from an image URL. *)
Module JsSplit.

Fixpoint split (s : string) (sep : ascii) : list string :=
  match s with
  | EmptyString => [EmptyString]
  | String c s' =>
      if Ascii.eqb c sep then EmptyString :: split s' sep
      else
        match split s' sep with
        | part :: parts => String c part :: parts
        | [] => [String c EmptyString]
        end
  end.

(** [const urlParts = imageUrl.split("/"); ...; `products/${fileName}`] *)
Definition publicId_of (imageUrl : string) : string :=
  let urlParts := split imageUrl "/"%char in
  let fileWithExt := last urlParts EmptyString in
  let fileName := hd EmptyString (split fileWithExt "."%char) in
  ("products/" ++ fileName)%string.

(** The character [c] does not occur in [s]. *)
Fixpoint free_of (c : ascii) (s : string) : bool :=
  match s with
  | EmptyString => true
  | String a s' => negb (Ascii.eqb a c) && free_of c s'
  end.

End JsSplit.

(** The user, notification, order-listing and product-deletion routes.
    They work on a [store]: the [world] of the routes above, the [users]
    table, and the image store reached through [cloudinary.uploader].  The
    statements of these routes are not added to the [trace].  The
    auto-increment id of the [order_items] rows, like the time stamps, is not
    part of the tables. *)
Module Admin.

Section Model.

Context {num : Type} `{JsNumber num}.

(** Row of [users]. *)
Record user : Type := {
  u_id : Z;
  u_name : Js.text;
  u_email : Js.text;
  u_contact_number : Js.text;
  u_role : Js.text;
  u_password : Js.text
}.

Record store : Type := {
  shop : world num;
  users : list user;
  next_user_id : Z;
  destroyed : list string;   (* public ids given to [cloudinary.uploader.destroy] *)
  cloudinary_up : bool       (* whether the image store answers *)
}.

Definition set_shop (w : world num) (st : store) : store :=
  {| shop := w; users := users st; next_user_id := next_user_id st;
     destroyed := destroyed st; cloudinary_up := cloudinary_up st |}.

Definition set_users (us : list user) (next : Z) (st : store) : store :=
  {| shop := shop st; users := us; next_user_id := next;
     destroyed := destroyed st; cloudinary_up := cloudinary_up st |}.

Definition set_notifications (ns : list notification) (d : database num) : database num :=
  {| products := products d; orders := orders d; order_items := order_items d;
     notifications := ns; next_product_id := next_product_id d;
     next_order_id := next_order_id d; next_notification_id := next_notification_id d |}.

(** *** Handler computations over the store *)

Definition N (A : Type) : Type := store -> outcome A * store.

Definition ret {A} (a : A) : N A := fun st => (Return a, st).

Definition bind {A B} (m : N A) (k : A -> N B) : N B :=
  fun st =>
    match m st with
    | (Return a, st') => k a st'
    | (Throw e, st') => (Throw e, st')
    end.

(** [try { m } catch (err) { handler err }] *)
Definition try_catch {A} (m : N A) (handler : exn -> N A) : N A :=
  fun st =>
    match m st with
    | (Return a, st') => (Return a, st')
    | (Throw e, st') => handler e st'
    end.

Notation "x <- m ;; k" := (bind m (fun x => k))
  (at level 61, m at next level, right associativity).
Notation "m ;;; k" := (bind m (fun _ => k))
  (at level 61, right associativity).

(** [await db.query(...)] on the tables of the shop. *)
Definition db_query {A} (run : database num -> A * database num) : N A :=
  fun st =>
    let (a, d) := run (db (shop st)) in
    (Return a, set_shop (set_db d (shop st)) st).

(** [await db.query(...)] on the [users] table and its counter. *)
Definition users_query {A} (run : list user -> Z -> A * (list user * Z)) : N A :=
  fun st =>
    let (a, t) := run (users st) (next_user_id st) in
    (Return a, set_users (fst t) (snd t) st).

(** [await cloudinary.uploader.destroy(publicId)] *)
Definition cloudinary_uploader_destroy (publicId : string) : N unit :=
  fun st =>
    if cloudinary_up st
    then (Return tt,
          {| shop := shop st; users := users st; next_user_id := next_user_id st;
             destroyed := destroyed st ++ [publicId]; cloudinary_up := cloudinary_up st |})
    else (Throw (Error "cloudinary.uploader.destroy failed"), st).

(** *** Answers *)

(** A user as [GET /users] selects it. *)
Record user_view : Type := {
  v_id : Z;
  v_name : Js.text;
  v_email : Js.text;
  v_contact_number : Js.text;
  v_role : Js.text
}.

(** A row of the join [GET /orders] selects; the columns of [order_items]
    and of [products] are NULL where the left joins find no row. *)
Record order_row : Type := {
  r_order_id : Z;
  r_user_name : Js.text;
  r_order_total : num;
  r_payment_mode : Js.text;
  r_status : Js.text;
  r_product_id : option Z;
  r_product_name : Js.text;
  r_quantity : option Z;
  r_item_price : option num;
  r_item_total : option num;
  r_image_url : Js.text;
  r_category : Js.text
}.

Inductive json : Type :=
| json_error (error : string)
| json_message (message : string)
| json_user_created (message : string) (user_id : Z)
| json_users (results : list user_view)
| json_notifications (results : list notification)
| json_orders (rows : list order_row).

Record response : Type := {
  status : Z;
  body : json
}.

(** [res.json(b)] *)
Definition res_json (b : json) : response := {| status := 200; body := b |}.

(** [res.status(s).json(b)] *)
Definition res_status_json (s : Z) (b : json) : response := {| status := s; body := b |}.

(** *** Product deletion *)

Definition DELETE_FROM_products (id : Z) (d : database num) : unit * database num :=
  (tt, set_products (filter (fun p => negb (p_id p =? id)) (products d)) d).

(** [app.delete("/products/:id", ...)] *)
Definition delete_products_id (id : Z) : N response :=
  try_catch
    (rows <- db_query (SELECT_products_WHERE_id id) ;;
     match rows with
     | [] => ret (res_status_json 404 (json_error "Product not found"))
     | row :: _ =>
         let imageUrl := p_image_url row in
         (match imageUrl with
          | Js.str url =>
              if String.eqb url EmptyString then ret tt
              else cloudinary_uploader_destroy (JsSplit.publicId_of url)
          | _ => ret tt
          end) ;;;
         db_query (DELETE_FROM_products id) ;;;
         ret (res_json (json_message "Product deleted successfully"))
     end)
    (fun err => ret (res_status_json 500 (json_error "Failed to delete product"))).

(** The same route in the first program of [src/unnamed/part_000]: the call
    to the image store has a [try] of its own. *)
Definition variant_delete_products_id (id : Z) : N response :=
  try_catch
    (rows <- db_query (SELECT_products_WHERE_id id) ;;
     match rows with
     | [] => ret (res_status_json 404 (json_error "Product not found"))
     | row :: _ =>
         let imageUrl := p_image_url row in
         (match imageUrl with
          | Js.str url =>
              if String.eqb url EmptyString then ret tt
              else
                try_catch
                  (cloudinary_uploader_destroy (JsSplit.publicId_of url))
                  (fun cloudErr => ret tt)
          | _ => ret tt
          end) ;;;
         db_query (DELETE_FROM_products id) ;;;
         ret (res_json (json_message "Product deleted successfully!"))
     end)
    (fun err => ret (res_status_json 500 (json_error "Failed to delete product"))).

(** *** Users *)

Definition view_of (u : user) : user_view :=
  {| v_id := u_id u; v_name := u_name u; v_email := u_email u;
     v_contact_number := u_contact_number u; v_role := u_role u |}.

(** [app.get("/users", ...)] *)
Definition get_users : N response :=
  try_catch
    (results <- users_query (fun us next => (map view_of us, (us, next))) ;;
     ret (res_json (json_users results)))
    (fun err => ret (res_status_json 500 (json_error (message_of err)))).

Definition INSERT_user (name email contact_number role password : Js.text)
    (us : list user) (next : Z) : Z * (list user * Z) :=
  (next,
   (us ++ [{| u_id := next; u_name := sql_param name; u_email := sql_param email;
              u_contact_number := sql_param contact_number; u_role := sql_param role;
              u_password := sql_param password |}],
    next + 1)).

(** [req.body] of the user routes. *)
Record user_body : Type := {
  b_name : Js.text;
  b_email : Js.text;
  b_contact_number : Js.text;
  b_role : Js.text;
  b_password : Js.text
}.

(** [app.post("/users", ...)] *)
Definition post_users (body : user_body) : N response :=
  try_catch
    (insertId <- users_query
                   (INSERT_user (b_name body) (b_email body)
                      (Js.or (b_contact_number body) Js.null) (b_role body)
                      (b_password body)) ;;
     ret (res_json (json_user_created "User created!" insertId)))
    (fun err => ret (res_status_json 500 (json_error (message_of err)))).

(** The two statements of [PUT /users/:id]: with and without the password. *)
Definition UPDATE_user (name email contact_number role : Js.text)
    (password : option Js.text) (id : Z) (us : list user) (next : Z)
    : unit * (list user * Z) :=
  (tt,
   (map (fun u =>
           if u_id u =? id
           then {| u_id := u_id u; u_name := sql_param name; u_email := sql_param email;
                   u_contact_number := sql_param contact_number; u_role := sql_param role;
                   u_password :=
                     match password with
                     | Some p => sql_param p
                     | None => u_password u
                     end |}
           else u)
        us,
    next)).

(** [app.put("/users/:id", ...)] *)
Definition put_users_id (id : Z) (body : user_body) : N response :=
  try_catch
    (let password := b_password body in
     users_query
       (UPDATE_user (b_name body) (b_email body) (Js.or (b_contact_number body) Js.null)
          (b_role body) (if Js.truthy password then Some password else None) id) ;;;
     ret (res_json (json_message "User updated!")))
    (fun err => ret (res_status_json 500 (json_error (message_of err)))).

(** [app.delete("/users/:id", ...)] *)
Definition delete_users_id (id : Z) : N response :=
  try_catch
    (users_query (fun us next => (tt, (filter (fun u => negb (u_id u =? id)) us, next))) ;;;
     ret (res_json (json_message "User deleted!")))
    (fun err => ret (res_status_json 500 (json_error (message_of err)))).

(** *** The order listing *)

(** [IFNULL(p.category, p.name)] *)
Definition IFNULL (a b : Js.text) : Js.text :=
  match a with
  | Js.str _ => a
  | _ => b
  end.

Definition joined (o : order num) (oi : option (order_item num)) (p : option (product num))
    : order_row :=
  {| r_order_id := o_id o; r_user_name := o_user_name o; r_order_total := o_total o;
     r_payment_mode := o_payment_mode o; r_status := o_status o;
     r_product_id := option_map oi_product_id oi;
     r_product_name := match oi with Some i => oi_product_name i | None => Js.null end;
     r_quantity := option_map oi_quantity oi;
     r_item_price := option_map oi_price oi;
     r_item_total := option_map oi_total oi;
     r_image_url := match p with Some q => p_image_url q | None => Js.null end;
     r_category :=
       match p with Some q => IFNULL (p_category q) (p_name q) | None => Js.null end |}.

(** [LEFT JOIN products p ON oi.product_id = p.id] for one line. *)
Definition join_products (ps : list (product num)) (o : order num) (oi : order_item num)
    : list order_row :=
  match filter (fun p => p_id p =? oi_product_id oi) ps with
  | [] => [joined o (Some oi) None]
  | matches => map (fun p => joined o (Some oi) (Some p)) matches
  end.

(** [FROM orders o LEFT JOIN order_items oi ON oi.order_id = o.id LEFT JOIN
    products p ON oi.product_id = p.id], in table order. *)
Definition SELECT_orders_joined (d : database num) : list order_row * database num :=
  (flat_map
     (fun o =>
        match filter (fun oi => oi_order_id oi =? o_id o) (order_items d) with
        | [] => [joined o None None]
        | lines => flat_map (join_products (products d) o) lines
        end)
     (orders d),
   d).

(** [app.get("/orders", ...)] *)
Definition get_orders : N response :=
  try_catch
    (rows <- db_query SELECT_orders_joined ;;
     ret (res_json (json_orders rows)))
    (fun err => ret (res_status_json 500 (json_error (message_of err)))).

(** *** Notifications *)

(** [ORDER BY id DESC] *)
Fixpoint insert_by_id_desc (n : notification) (l : list notification) : list notification :=
  match l with
  | [] => [n]
  | m :: l' => if n_id m <=? n_id n then n :: l else m :: insert_by_id_desc n l'
  end.

Definition ORDER_BY_id_DESC (l : list notification) : list notification :=
  fold_right insert_by_id_desc [] l.

(** [app.get("/notifications", ...)] *)
Definition get_notifications : N response :=
  try_catch
    (results <- db_query
                  (fun d => (firstn 20 (ORDER_BY_id_DESC (notifications d)), d)) ;;
     ret (res_json (json_notifications results)))
    (fun err => ret (res_status_json 500 (json_error (message_of err)))).

Definition UPDATE_notifications_SET_isRead (id : Z) (d : database num) : unit * database num :=
  (tt, set_notifications
         (map (fun n =>
                 if n_id n =? id
                 then {| n_id := n_id n; n_type := n_type n;
                         n_reference_id := n_reference_id n; n_message := n_message n;
                         n_isRead := 1 |}
                 else n)
              (notifications d))
         d).

(** [app.put("/notifications/:id/read", ...)] *)
Definition put_notifications_id_read (id : Z) : N response :=
  try_catch
    (db_query (UPDATE_notifications_SET_isRead id) ;;;
     ret (res_json (json_message "Notification marked as read!")))
    (fun err => ret (res_status_json 500 (json_error (message_of err)))).

Definition DELETE_FROM_notifications (id : Z) (d : database num) : unit * database num :=
  (tt, set_notifications (filter (fun n => negb (n_id n =? id)) (notifications d)) d).

(** [app.delete("/notifications/:id", ...)] *)
Definition delete_notifications_id (id : Z) : N response :=
  try_catch
    (db_query (DELETE_FROM_notifications id) ;;;
     ret (res_json (json_message "Notification deleted!")))
    (fun err => ret (res_status_json 500 (json_error (message_of err)))).


End Model.

Arguments store : clear implicits.
Arguments N : clear implicits.
Arguments order_row : clear implicits.
Arguments json : clear implicits.
Arguments response : clear implicits.

End Admin.

(** ** Vocabulary of the further properties *)

Section Vocabulary2.

Context {num : Type} `{JsNumber num}.

(** The stock statements of the lines [data], each computed from the rows
    [selected]. *)
Definition stock_statements (selected : list (product num))
    (data : list (order_item_data num)) : list sql :=
  flat_map
    (fun i =>
       match find (fun p => p_id p =? d_product_id i) selected with
       | Some product =>
           [UPDATE_products_SET_stock_WHERE_id (p_stock product - d_quantity i)
              (p_id product)]
       | None => []
       end)
    data.

(** The stock statement of the request line [it], in the catalogue [ps]. *)
Definition stock_statement_of (ps : list (product num)) (it : item) : list sql :=
  match product_of ps it with
  | Some p => [UPDATE_products_SET_stock_WHERE_id (p_stock p - i_quantity it) (p_id p)]
  | None => []
  end.

(** The row a status update writes. *)
Definition with_status (s : string) (o : order num) : order num :=
  {| o_id := o_id o; o_user_name := o_user_name o; o_total := o_total o;
     o_payment_mode := o_payment_mode o; o_status := Js.str s |}.

(** The message, if any, that a status update to [s] sends about order [o]. *)
Definition status_message (o : order num) (s : string) : option string :=
  let delivered :=
    ("Order #" ++ Js.string_of_Z (o_id o) ++ " for " ++ Js.template (o_user_name o)
       ++ " has been delivered!")%string in
  let cancelled :=
    ("Order #" ++ Js.string_of_Z (o_id o) ++ " for " ++ Js.template (o_user_name o)
       ++ " has been cancelled/returned!")%string in
  if Js.test_i "cancelled" s then Some cancelled
  else if Js.test_i "delivered" s then Some delivered
  else if Js.test_i "pending" s then None
  else if Js.test_i "returned" s then Some cancelled
  else None.

(** The ids [ids] of a table with counter [next] after at most one insert. *)
Definition grows (ids : list Z) (next : Z) (ids' : list Z) (next' : Z) : Prop :=
  (ids' = ids /\ next' = next) \/ (ids' = ids ++ [next] /\ next' = next + 1).

(** Every id of a table is below the table's counter, and no two rows of a
    table share an id. *)
Definition well_keyed (d : database num) : Prop :=
  (Forall (fun i => i < next_product_id d) (map p_id (products d)) /\
   NoDup (map p_id (products d))) /\
  (Forall (fun i => i < next_order_id d) (map o_id (orders d)) /\
   NoDup (map o_id (orders d))) /\
  (Forall (fun i => i < next_notification_id d) (map n_id (notifications d)) /\
   NoDup (map n_id (notifications d))).

(** One request's effect on the keys of the three tables: each table keeps
    its ids, in order, and gains at most one, the value of its counter. *)
Definition keys_step (d d' : database num) : Prop :=
  grows (map p_id (products d)) (next_product_id d)
    (map p_id (products d')) (next_product_id d') /\
  grows (map o_id (orders d)) (next_order_id d)
    (map o_id (orders d')) (next_order_id d') /\
  grows (map n_id (notifications d)) (next_notification_id d)
    (map n_id (notifications d')) (next_notification_id d').

(** What a status update sends: nothing, or one notification of type status. *)
Definition status_notifications (w : world num) (o : order num) (s : string)
    : list notification :=
  match status_message o s with
  | Some m => [notification_in w "status" (o_id o) m]
  | None => []
  end.

(** The columns of a listed order row that come from [orders] and
    [order_items]: everything but the image and the category. *)
Definition snapshot (r : Admin.order_row num)
    : Z * Js.text * num * Js.text * Js.text
      * option Z * Js.text * option Z * option num * option num :=
  (Admin.r_order_id r, Admin.r_user_name r, Admin.r_order_total r, Admin.r_payment_mode r,
   Admin.r_status r, Admin.r_product_id r, Admin.r_product_name r, Admin.r_quantity r,
   Admin.r_item_price r, Admin.r_item_total r).

(** The snapshot columns of the listing, read off the orders and their
    lines alone. *)
Definition snapshots_of (d : database num) :=
  flat_map
    (fun o =>
       match filter (fun oi => oi_order_id oi =? o_id o) (order_items d) with
       | [] => [snapshot (Admin.joined o None None)]
       | lines => map (fun oi => snapshot (Admin.joined o (Some oi) None)) lines
       end)
    (orders d).

(** A notification, read. *)
Definition read (n : notification) : notification :=
  {| n_id := n_id n; n_type := n_type n; n_reference_id := n_reference_id n;
     n_message := n_message n; n_isRead := 1 |}.

(** [a] is listed before [b]: its id is not the smaller one. *)
Definition newer (a b : notification) : Prop := n_id b <= n_id a.

(** The rows an order listing answers with. *)
Definition listed_orders (r : outcome (Admin.response num)) : list (Admin.order_row num) :=
  match r with
  | Return {| Admin.status := _; Admin.body := Admin.json_orders rows |} => rows
  | _ => []
  end.

(** The public ids a deletion of the row [row] asks the image store to
    destroy. *)
Definition destroyed_for (row : product num) : list string :=
  match p_image_url row with
  | Js.str url => if String.eqb url EmptyString then [] else [JsSplit.publicId_of url]
  | _ => []
  end.

End Vocabulary2.

(** ** A sample store *)

Module SampleStore.

(** The sample shop with the given stock of roses, no user, and the image
    store answering or not. *)
Definition store (stock : Z) (up : bool) : Admin.store Z :=
  {| Admin.shop := Sample.shop stock; Admin.users := []; Admin.next_user_id := 1;
     Admin.destroyed := []; Admin.cloudinary_up := up |}.

(** [{ name: "Ana", email: "ana@example.org", role: "admin", password }] *)
Definition ana (password : Js.text) : Admin.user_body :=
  {| Admin.b_name := Js.str "Ana"; Admin.b_email := Js.str "ana@example.org";
     Admin.b_contact_number := Js.str EmptyString; Admin.b_role := Js.str "admin";
     Admin.b_password := password |}.

End SampleStore.

(** * Properties *)

(** ** Strings *)

Section JsFacts.

Import Js.

Lemma isWhiteSpace_toLowerCaseChar (c : ascii) :
  isWhiteSpace (toLowerCaseChar c) = isWhiteSpace c.
Proof. destruct c as [[] [] [] [] [] [] [] []]; reflexivity. Qed.

Lemma trimEnd_cons (c : ascii) (s : string) :
  trimEnd (String c s) =
  if String.eqb (trimEnd s) EmptyString && isWhiteSpace c then EmptyString else String c (trimEnd s).
Proof.
  simpl. destruct (trimEnd s); simpl; [destruct (isWhiteSpace c) |]; reflexivity.
Qed.

Lemma toLowerCase_eq_empty (s : string) :
  String.eqb (toLowerCase s) EmptyString = String.eqb s EmptyString.
Proof. destruct s; reflexivity. Qed.

Lemma toLowerCase_trimStart (s : string) :
  toLowerCase (trimStart s) = trimStart (toLowerCase s).
Proof.
  induction s as [| c s IH]; simpl; [reflexivity |].
  rewrite isWhiteSpace_toLowerCaseChar.
  destruct (isWhiteSpace c); [exact IH | reflexivity].
Qed.

Lemma toLowerCase_trimEnd (s : string) :
  toLowerCase (trimEnd s) = trimEnd (toLowerCase s).
Proof.
  induction s as [| c s IH]; [reflexivity |].
  change (toLowerCase (String c s)) with (String (toLowerCaseChar c) (toLowerCase s)).
  rewrite !trimEnd_cons, <- IH, toLowerCase_eq_empty, isWhiteSpace_toLowerCaseChar.
  destruct (String.eqb (trimEnd s) EmptyString && isWhiteSpace c); reflexivity.
Qed.

Lemma toLowerCase_trim (s : string) : toLowerCase (trim s) = trim (toLowerCase s).
Proof. unfold trim. now rewrite toLowerCase_trimEnd, toLowerCase_trimStart. Qed.

(** A white-space character does not start a match of [p]. *)
Lemma startsWith_white_space (c : ascii) (s p : string) :
  no_white_space p = true -> p <> EmptyString -> isWhiteSpace c = true ->
  startsWith (String c s) p = false.
Proof.
  intros Hp Hne Hc. destruct p as [| a p]; [congruence |].
  simpl in *. destruct (Ascii.eqb_spec a c) as [-> |]; [| reflexivity].
  rewrite Hc in Hp. discriminate.
Qed.

Lemma includes_trimStart (s p : string) :
  no_white_space p = true -> p <> EmptyString -> includes (trimStart s) p = includes s p.
Proof.
  intros Hp Hne. induction s as [| c s IH]; [reflexivity |].
  cbn [trimStart]. destruct (isWhiteSpace c) eqn:Hc; [| reflexivity].
  rewrite IH. cbn [includes]. now rewrite startsWith_white_space.
Qed.

Lemma startsWith_trimEnd (s p : string) :
  no_white_space p = true -> startsWith (trimEnd s) p = startsWith s p.
Proof.
  revert p. induction s as [| c s IH]; intros p Hp; [reflexivity |].
  rewrite trimEnd_cons.
  destruct p as [| a p]; [now destruct (_ && _) |].
  simpl in Hp. apply andb_true_iff in Hp as [Ha Hp].
  destruct (String.eqb (trimEnd s) EmptyString && isWhiteSpace c) eqn:E.
  - apply andb_true_iff in E as [_ Hc]. simpl.
    destruct (Ascii.eqb_spec a c) as [-> |]; [| reflexivity].
    rewrite Hc in Ha. discriminate.
  - simpl. now rewrite IH.
Qed.

Lemma includes_trimEnd (s p : string) :
  no_white_space p = true -> p <> EmptyString -> includes (trimEnd s) p = includes s p.
Proof.
  intros Hp Hne. induction s as [| c s IH]; [reflexivity |].
  cbn [includes]. rewrite <- (startsWith_trimEnd (String c s) p Hp), <- IH.
  rewrite trimEnd_cons.
  destruct (String.eqb (trimEnd s) EmptyString && isWhiteSpace c) eqn:E.
  - apply andb_true_iff in E as [E _]. apply String.eqb_eq in E. rewrite E.
    destruct p; [congruence | reflexivity].
  - reflexivity.
Qed.

(** Trimming does not change whether a keyword occurs. *)
Lemma test_i_trim (p s : string) :
  no_white_space p = true -> p <> EmptyString -> test_i p (trim s) = test_i p s.
Proof.
  intros Hp Hne. unfold test_i. rewrite toLowerCase_trim. unfold trim.
  now rewrite includes_trimEnd, includes_trimStart.
Qed.

(** [startsWith] and [includes] are the prefix and the factor relations. *)
Lemma startsWith_spec (s p : string) :
  startsWith s p = true <-> exists t, s = (p ++ t)%string.
Proof.
  revert s. induction p as [| a p IH]; intros s.
  - destruct s; simpl; split; eauto.
  - destruct s as [| b s]; simpl.
    + split; [discriminate | intros [t Ht]; discriminate].
    + rewrite andb_true_iff, IH. split.
      * intros [Hab [t ->]]. apply Ascii.eqb_eq in Hab as ->. eauto.
      * intros [t Ht]. injection Ht as -> ->. split; [apply Ascii.eqb_refl | eauto].
Qed.

Lemma includes_spec (s p : string) :
  includes s p = true <-> exists u t, s = (u ++ p ++ t)%string.
Proof.
  induction s as [| c s IH]; cbn [includes]; rewrite orb_true_iff, startsWith_spec.
  - split.
    + intros [[t Ht] | ?]; [exists EmptyString, t; exact Ht | discriminate].
    + intros [u [t Ht]]. left. destruct u; [eauto | discriminate].
  - rewrite IH. split.
    + intros [[t Ht] | [u [t Ht]]]; [exists EmptyString, t; exact Ht |].
      exists (String c u), t. simpl. now rewrite Ht.
    + intros [u [t Ht]]. destruct u as [| c' u]; [left; eauto |].
      right. injection Ht as _ Ht. eauto.
Qed.

End JsFacts.

Example trim_ex : Js.trim "  Out for delivery
 " = "Out for delivery".
Proof. reflexivity. Qed.

Example string_of_Z_ex :
  Js.string_of_Z 42 = "42" /\ Js.string_of_Z 0 = "0" /\ Js.string_of_Z (-7) = "-7".
Proof. repeat split. Qed.

Example test_i_ex : Js.test_i "cancelled" "CANCELLED by customer" = true.
Proof. reflexivity. Qed.

(** ** Status normalisation *)



Example normalizedStatus_cancelled_by_customer :
  normalizedStatus "CANCELLED by customer" = "Cancelled/Returned".
Proof. reflexivity. Qed.

Example normalizedStatus_first_keyword_wins :
  normalizedStatus "delivered, then cancelled" = "Cancelled/Returned" /\
  normalizedStatus " pending, to be Delivered " = "Delivered".
Proof. split; reflexivity. Qed.

(** ** Notification helpers *)

Section Helpers.

Context {num : Type} `{JsNumber num}.

Lemma sendNotification_run (type : string) (reference_id : Z) (message : string)
    (w : world num) :
  exists w',
    sendNotification type reference_id message w = (Return tt, w') /\
    products (db w') = products (db w) /\
    orders (db w') = orders (db w) /\
    order_items (db w') = order_items (db w) /\
    notifications (db w') =
      notifications (db w) ++ [notification_in w type reference_id message] /\
    emitted w' = emitted w ++ [notification_in w type reference_id message] /\
    transaction w' = transaction w.
Proof. eexists. repeat split. Qed.

Lemma checkLowStock_run (id stock : Z) (name : Js.text) (w : world num) :
  exists w',
    checkLowStock id stock name w = (Return tt, w') /\
    products (db w') = products (db w) /\
    orders (db w') = orders (db w) /\
    order_items (db w') = order_items (db w) /\
    notifications (db w') =
      notifications (db w) ++ (if stock <? 20 then [low_stock_alert w id name] else []) /\
    emitted w' = emitted w ++ (if stock <? 20 then [low_stock_alert w id name] else []) /\
    transaction w' = transaction w.
Proof.
  unfold checkLowStock. destruct (stock <? 20).
  - apply sendNotification_run.
  - exists w. rewrite !app_nil_r. repeat split.
Qed.

Lemma orderStatusNotification_run (o : order num) (w : world num) :
  exists w',
    orderStatusNotification o w = (Return tt, w') /\
    products (db w') = products (db w) /\
    orders (db w') = orders (db w) /\
    order_items (db w') = order_items (db w) /\
    transaction w' = transaction w.
Proof.
  unfold orderStatusNotification.
  destruct (o_status o) as [| | s]; try (exists w; repeat split; fail).
  destruct (String.eqb s EmptyString); [exists w; repeat split |].
  match goal with |- context [if String.eqb ?m EmptyString then _ else _] =>
    destruct (String.eqb m EmptyString) end; [exists w; repeat split |].
  match goal with |- context [sendNotification ?t ?r ?m w] =>
    destruct (sendNotification_run t r m w) as (w' & E & ? & ? & ? & _ & _ & ?) end.
  exists w'. repeat split; assumption.
Qed.

End Helpers.

(** ** Product routes *)

Section ProductRoutes.

Context {num : Type} `{JsNumber num}.

Lemma get_products_run (w : world num) :
  get_products w =
  (Return (res_json (json_views (map with_supply_alert (products (db w))))),
   log SELECT_FROM_products w).
Proof. destruct w as [d t tr e]. reflexivity. Qed.

Lemma get_products_id_run (id : Z) (w : world num) :
  get_products_id id w =
  (Return
     match filter (fun p => p_id p =? id) (products (db w)) with
     | [] => res_status_json 404 (json_error "Product not found")
     | product :: _ => res_json (json_view (with_supply_alert product))
     end,
   log (SELECT_FROM_products_WHERE_id id) w).
Proof.
  destruct w as [d t tr e].
  unfold get_products_id, try_catch, bind, query, SELECT_products_WHERE_id, set_db, log.
  cbn. destruct (filter _ _); reflexivity.
Qed.

(** The creation handler answers 400 without an image and 500 with one; in
    the second case the row has been inserted all the same. *)
Lemma post_products_run (body : product_body num) (file : option upload) (w : world num) :
  match file with
  | None =>
      post_products body file w =
      (Return (res_status_json 400 (json_error "Product image is required")), w)
  | Some f =>
      exists w',
        post_products body file w =
        (Return (res_status_json 500 (json_error "Failed to add product")), w') /\
        products (db w') =
          products (db w) ++
            [{| p_id := next_product_id (db w); p_name := sql_param (b_name body);
                p_price := b_price body; p_stock := b_stock body;
                p_category := sql_param (b_category body);
                p_description := sql_param (b_description body);
                p_image_url := sql_param (Js.or (path f) (secure_url f)) |}]
  end.
Proof.
  destruct file as [f |]; [| reflexivity].
  unfold post_products, try_catch, bind.
  match goal with |- context [query ?q ?r w] =>
    destruct (query q r w) as [o w1] eqn:Q end.
  unfold query in Q. cbn in Q. injection Q as <- <-.
  match goal with |- context [(if ?c then ?m else ret tt) ?w1] =>
    assert (E : exists w2, (if c then m else ret tt) w1 = (Return tt, w2) /\
                           products (db w2) = products (db w1))
  end.
  { destruct (b_stock body <? 20).
    - match goal with |- context [checkLowStock ?i ?s ?n ?w1] =>
        destruct (checkLowStock_run i s n w1) as (w2 & E & P & _) end.
      exists w2. split; [exact E | exact P].
    - eexists. split; reflexivity. }
  destruct E as (w2 & E & P). rewrite E. cbn.
  exists w2. split; [reflexivity |]. rewrite P. reflexivity.
Qed.

(** The update handler on a product that exists: [prev] is the first row the
    statement selecting the previous stock and name returns. *)
Lemma put_products_id_run (id : Z) (body : product_body num) (file : option upload)
    (w : world num) (prev : product num) (others : list (product num)) :
  filter (fun p => p_id p =? id) (products (db w)) = prev :: others ->
  let image_url :=
    match file with
    | Some f => Js.or (path f) (secure_url f)
    | None => b_existingImageUrl body
    end in
  let crossing := (b_stock body <? 20) && (p_stock prev >=? 20) in
  let alert := low_stock_alert w id (Js.or (b_name body) (p_name prev)) in
  exists w',
    put_products_id id body file w =
      (Return (res_json
                 (json_product "Product updated successfully"
                    (if b_stock body <? 20 then "LOW ON SUPPLIES" else "OK")
                    {| p_id := id; p_name := b_name body; p_price := b_price body;
                       p_stock := b_stock body; p_category := b_category body;
                       p_description := b_description body; p_image_url := image_url |})),
       w')
    /\ products (db w') =
         products (snd (UPDATE_product (b_name body) (b_price body) (b_stock body)
                          (b_category body) (b_description body) image_url id (db w)))
    /\ notifications (db w') = notifications (db w) ++ (if crossing then [alert] else [])
    /\ emitted w' = emitted w ++ (if crossing then [alert] else []).
Proof.
  intros Hprev image_url crossing alert.
  unfold put_products_id, try_catch, bind.
  unfold query at 1, SELECT_products_WHERE_id. cbn [fst snd]. rewrite Hprev.
  fold image_url.
  match goal with |- context [query ?q ?r ?w0] =>
    destruct (query q r w0) as [o w1] eqn:Q end.
  unfold query in Q. cbn in Q. injection Q as <- <-.
  set (w1 := set_db _ _).
  assert (Hn : low_stock_alert w1 id (Js.or (b_name body) (p_name prev)) = alert) by reflexivity.
  fold crossing.
  destruct (checkLowStock_run id (b_stock body) (Js.or (b_name body) (p_name prev)) w1)
    as (w2 & E & P & _ & _ & N & Em & _).
  rewrite Hn in N, Em.
  destruct crossing eqn:C.
  - rewrite E. exists w2. apply andb_true_iff in C as [C _]. rewrite C in N, Em.
    repeat split; assumption.
  - exists w1. rewrite !app_nil_r. repeat split.
Qed.

Lemma put_products_id_not_found (id : Z) (body : product_body num) (file : option upload)
    (w : world num) :
  filter (fun p => p_id p =? id) (products (db w)) = [] ->
  put_products_id id body file w =
  (Return (res_status_json 404 (json_error "Product not found")),
   log (SELECT_stock_name_FROM_products_WHERE_id id) w).
Proof.
  intros Hprev. destruct w as [d t tr e].
  unfold put_products_id, try_catch, bind, query, SELECT_products_WHERE_id. cbn in *.
  rewrite Hprev. reflexivity.
Qed.

End ProductRoutes.

Section ProductClaims.

Context {num : Type} `{JsNumber num}.



End ProductClaims.


(** An edit from 25 to 15 sends exactly one alert; an edit from 5 to 3, and
    one from 25 to 22, send none. *)
Example put_products_id_25_to_15 :
  emitted (snd (put_products_id 1 (Sample.form "Rose" 15) None (Sample.shop 25))) =
    [{| n_id := 1; n_type := "low on supplies"; n_reference_id := 1;
        n_message := "Product 'Rose' is low on supplies!"; n_isRead := 0 |}].
Proof. reflexivity. Qed.

Example put_products_id_5_to_3 :
  emitted (snd (put_products_id 1 (Sample.form "Rose" 3) None (Sample.shop 5))) = [] /\
  notifications (db (snd (put_products_id 1 (Sample.form "Rose" 3) None (Sample.shop 5)))) = [].
Proof. split; reflexivity. Qed.

(** C9 fails on the code: a complete creation request (name, numeric price
    and stock, image) is answered 500 after its row has been inserted, since
    building the answer reads the undeclared [supplyAlert]. *)
Theorem post_products_valid_request_fails :
  let r := post_products (Sample.form "Lily" 30) (Some Sample.image) (Sample.shop 25) in
  fst r = Return (res_status_json 500 (json_error "Failed to add product")) /\
  products (db (snd r)) =
    [Sample.rose 25;
     {| p_id := 2; p_name := Js.str "Lily"; p_price := 10; p_stock := 30;
        p_category := Js.str "Bouquet"; p_description := Js.null;
        p_image_url := Js.str "https://res.cloudinary.com/demo/products/new.png" |}].
Proof. split; reflexivity. Qed.

(** ** The order transaction *)

Section OrderTransaction.

Context {num : Type} `{JsNumber num}.

Implicit Types (ps selected : list (product num)) (items : list item)
  (data : list (order_item_data num)) (w : world num).

(** Looking a product up among the selected rows is looking it up in the
    table, for an id the statement selected. *)
Lemma find_selected ps (ids : list Z) (id : Z) :
  In id ids ->
  find (fun p => p_id p =? id) (filter (fun p => existsb (Z.eqb (p_id p)) ids) ps) =
  find (fun p => p_id p =? id) ps.
Proof.
  intros Hid. induction ps as [| p ps IH]; [reflexivity |].
  cbn [filter find]. destruct (Z.eqb_spec (p_id p) id) as [E | E].
  - replace (existsb (Z.eqb (p_id p)) ids) with true.
    + cbn [find]. rewrite E, Z.eqb_refl. reflexivity.
    + symmetry. apply existsb_exists. exists id. split; [exact Hid |].
      rewrite E. apply Z.eqb_refl.
  - destruct (existsb (Z.eqb (p_id p)) ids); [| exact IH].
    cbn [find]. destruct (Z.eqb_spec (p_id p) id); [contradiction | exact IH].
Qed.

Lemma items_map_selected ps (ids : list Z) items (orderTotal : num) :
  incl (map i_product_id items) ids ->
  items_map (filter (fun p => existsb (Z.eqb (p_id p)) ids) ps) items orderTotal =
  items_map ps items orderTotal.
Proof.
  revert orderTotal. induction items as [| it items IH]; intros orderTotal Hincl; [reflexivity |].
  cbn [items_map]. rewrite find_selected by (apply Hincl; left; reflexivity).
  destruct (find _ ps) as [p |]; [| reflexivity].
  destruct (i_quantity it >? p_stock p); [reflexivity |].
  rewrite IH; [reflexivity |]. intros x Hx. apply Hincl. right. exact Hx.
Qed.

Lemma find_id ps (id : Z) (p : product num) :
  find (fun p => p_id p =? id) ps = Some p -> In p ps /\ p_id p = id.
Proof.
  intros F. apply find_some in F as [I E]. split; [exact I | now apply Z.eqb_eq].
Qed.

(** The check throws at the first line that fails it. *)
Lemma items_map_fails ps items (orderTotal : num) :
  Exists (stock_check_fails ps) items ->
  exists before it after,
    items = before ++ it :: after /\
    Forall (fun i => ~ stock_check_fails ps i) before /\
    stock_check_fails ps it /\
    items_map ps items orderTotal = Throw (Error (stock_error ps it)).
Proof.
  revert orderTotal. induction items as [| i items IH]; intros orderTotal Hex.
  - inversion Hex.
  - cbn [items_map].
    destruct (find (fun p => p_id p =? i_product_id i) ps) as [p |] eqn:F.
    + destruct (Z.gtb_spec (i_quantity i) (p_stock p)) as [G | G].
      * exists [], i, items. unfold stock_check_fails, stock_error, product_of.
        rewrite F. repeat split; [constructor | lia].
      * assert (Hi : ~ stock_check_fails ps i).
        { unfold stock_check_fails, product_of. rewrite F. lia. }
        inversion Hex as [? ? Hh | ? ? Ht]; subst; [contradiction |].
        destruct (IH (num_add orderTotal (num_mul (p_price p) (Number (i_quantity i)))) Ht)
          as (before & it & after & -> & Hb & Hf & E).
        exists (i :: before), it, after. rewrite E.
        repeat split; [constructor; assumption | assumption].
    + exists [], i, items. unfold stock_check_fails, stock_error, product_of.
      rewrite F. repeat split. constructor.
Qed.

(** When every line passes, the check returns one line of data per line of
    the request and the running total. *)
Lemma items_map_passes ps items (orderTotal : num) :
  Forall (fun i => ~ stock_check_fails ps i) items ->
  exists data,
    items_map ps items orderTotal =
      Return (data, fold_left num_add (map d_total data) orderTotal) /\
    Forall2 (fun it d =>
               exists p, product_of ps it = Some p /\ i_quantity it <= p_stock p /\
                         d = data_of p it)
            items data.
Proof.
  revert orderTotal. induction items as [| i items IH]; intros orderTotal Hall.
  - exists []. split; [reflexivity | constructor].
  - inversion Hall as [| ? ? Hi Hrest]; subst. cbn [items_map].
    unfold stock_check_fails, product_of in Hi.
    destruct (find (fun p => p_id p =? i_product_id i) ps) as [p |] eqn:F; [| tauto].
    destruct (Z.gtb_spec (i_quantity i) (p_stock p)) as [G | G]; [lia |].
    destruct (IH (num_add orderTotal (num_mul (p_price p) (Number (i_quantity i)))) Hrest)
      as (data & E & F2).
    rewrite E. exists (data_of p i :: data). split; [reflexivity |].
    constructor; [| exact F2]. exists p. unfold product_of. rewrite F. repeat split. lia.
Qed.

Lemma stock_check_fails_dec ps (it : item) :
  {stock_check_fails ps it} + {~ stock_check_fails ps it}.
Proof.
  unfold stock_check_fails. destruct (product_of ps it) as [p |]; [| left; exact I].
  destruct (Z_gt_dec (i_quantity it) (p_stock p)); [left | right]; assumption.
Qed.

(** The outcome of the check settles which case the lines are in. *)
Lemma items_map_returns ps items (orderTotal : num) data (total : num) :
  items_map ps items orderTotal = Return (data, total) ->
  Forall (fun i => ~ stock_check_fails ps i) items.
Proof.
  intros E. apply Forall_Exists_neg. intros Hex.
  destruct (items_map_fails ps items orderTotal Hex) as (? & ? & ? & _ & _ & _ & T).
  congruence.
Qed.

(** The stock loop runs one statement per line and touches nothing but the
    stock column. *)
Lemma update_stock_run selected data w :
  Forall (fun i => find (fun p => p_id p =? d_product_id i) selected <> None) data ->
  exists w',
    update_stock selected data w = (Return tt, w') /\
    products (db w') = fold_left (restock selected) data (products (db w)) /\
    orders (db w') = orders (db w) /\
    order_items (db w') = order_items (db w) /\
    notifications (db w') = notifications (db w) /\
    emitted w' = emitted w /\
    transaction w' = transaction w.
Proof.
  revert w. induction data as [| i data IH]; intros w Hfound.
  - exists w. repeat split.
  - inversion Hfound as [| ? ? Hi Hrest]; subst.
    cbn [update_stock fold_left]. unfold restock at 2.
    destruct (find (fun p => p_id p =? d_product_id i) selected) as [product |]; [| congruence].
    unfold bind, query. cbn [UPDATE_products_SET_stock fst snd].
    match goal with |- context [update_stock selected data ?w1] =>
      destruct (IH w1 Hrest) as (w' & E & P & O & OI & N & Em & T) end.
    exists w'. rewrite E. repeat split; assumption.
Qed.

Lemma post_orders_guard (body : order_body) :
  negb (Js.truthy (b_user_name body)) || negb (Js.truthy (b_payment_mode body))
  || no_items (b_items body) = negb (fields_present body).
Proof.
  unfold fields_present.
  destruct (Js.truthy (b_user_name body)), (Js.truthy (b_payment_mode body)),
    (no_items (b_items body)); reflexivity.
Qed.

(** A request that fails the required-fields test is answered 400 and
    reaches neither the connection pool nor the tables. *)
Lemma post_orders_missing_fields (body : order_body) w :
  fields_present body = false ->
  post_orders body w =
  (Return (res_status_json 400 (json_error "Missing required fields or items")), w).
Proof.
  intros V. unfold post_orders. rewrite post_orders_guard, V. reflexivity.
Qed.

Lemma post_orders_throws (body : order_body) items w (e : exn) :
  fields_present body = true ->
  b_items body = Some items ->
  items_map (products (db w)) items num_zero = Throw e ->
  post_orders body w =
  (Return (res_status_json 500 (json_error (message_of e))), rolled_back items w).
Proof.
  intros V Hitems E. unfold post_orders. rewrite post_orders_guard, V, Hitems.
  cbn [negb]. unfold bind, finally, try_catch, getConnection, beginTransaction, query, lift.
  cbn [SELECT_products_WHERE_id_IN fst snd db set_db log set_transaction].
  rewrite items_map_selected by apply incl_refl. rewrite E.
  unfold rollback, release, rolled_back, ret, set_transaction, set_db, log.
  cbn [transaction db trace emitted]. rewrite <- !app_assoc. reflexivity.
Qed.

Lemma restock_selected ps (ids : list Z) data (qs : list (product num)) :
  Forall (fun i => In (d_product_id i) ids) data ->
  fold_left (restock (filter (fun p => existsb (Z.eqb (p_id p)) ids) ps)) data qs =
  fold_left (restock ps) data qs.
Proof.
  revert qs. induction data as [| i data IH]; intros qs Hin; [reflexivity |].
  inversion Hin; subst. cbn [fold_left]. rewrite IH by assumption.
  unfold restock. rewrite find_selected by assumption. reflexivity.
Qed.

(** Each line of data names the product its line of the request names. *)
Lemma data_product_ids ps items data :
  Forall2 (fun it d =>
             exists p, product_of ps it = Some p /\ i_quantity it <= p_stock p /\
                       d = data_of p it)
          items data ->
  map d_product_id data = map i_product_id items.
Proof.
  induction 1 as [| it d items data (p & F & _ & ->) _ IH]; [reflexivity |].
  cbn [map]. rewrite IH. f_equal. apply find_id in F. apply F.
Qed.

Lemma data_found ps items data :
  Forall2 (fun it d =>
             exists p, product_of ps it = Some p /\ i_quantity it <= p_stock p /\
                       d = data_of p it)
          items data ->
  Forall (fun d => find (fun p => p_id p =? d_product_id d) ps <> None) data.
Proof.
  induction 1 as [| it d items data (p & F & _ & ->) _ IH]; constructor; [| exact IH].
  cbn [data_of d_product_id]. unfold product_of in F.
  destruct (find_id _ _ _ F) as [_ ->]. congruence.
Qed.

(** A request whose lines all pass the check is committed: one order row,
    one row per line, one stock statement per line, and nothing else. *)
Lemma post_orders_commits (body : order_body) items w data (total : num) :
  fields_present body = true ->
  b_items body = Some items ->
  items_map (products (db w)) items num_zero = Return (data, total) ->
  exists w',
    post_orders body w =
      (Return (res_json (json_order "Order placed!" (next_order_id (db w)))), w') /\
    products (db w') = fold_left (restock (products (db w))) data (products (db w)) /\
    orders (db w') =
      orders (db w) ++
        [{| o_id := next_order_id (db w); o_user_name := sql_param (b_user_name body);
            o_total := total; o_payment_mode := sql_param (b_payment_mode body);
            o_status := Js.str "pending" |}] /\
    order_items (db w') =
      order_items (db w) ++ map (row_of (next_order_id (db w))) data /\
    notifications (db w') = notifications (db w) /\
    emitted w' = emitted w /\
    transaction w' = None.
Proof.
  intros V Hitems E.
  pose proof (items_map_returns _ _ _ _ _ E) as Hpass.
  destruct (items_map_passes (products (db w)) items num_zero Hpass) as (data' & E' & F2).
  rewrite E in E'. injection E' as <- ->.
  pose proof (data_product_ids _ _ _ F2) as Hids.
  assert (Hin : Forall (fun i => In (d_product_id i) (map i_product_id items)) data).
  { apply Forall_forall. intros i Hi. rewrite <- Hids. now apply in_map. }
  set (selected := filter (fun p => existsb (Z.eqb (p_id p)) (map i_product_id items))
                     (products (db w))).
  assert (Hfound : Forall (fun i => find (fun p => p_id p =? d_product_id i) selected <> None)
                     data).
  { pose proof (data_found _ _ _ F2) as Hf. rewrite Forall_forall in Hf, Hin |- *.
    intros i Hi. unfold selected. rewrite find_selected by (apply Hin; exact Hi).
    apply Hf. exact Hi. }
  unfold post_orders. rewrite post_orders_guard, V, Hitems.
  cbn [negb]. unfold bind, finally, try_catch, getConnection, beginTransaction, lift.
  unfold query at 1. cbn [SELECT_products_WHERE_id_IN fst snd].
  cbn [db set_db log set_transaction].
  rewrite items_map_selected by apply incl_refl. rewrite E.
  unfold query. cbn [INSERT_order INSERT_order_items fst snd].
  fold selected.
  match goal with |- context [update_stock selected ?dt ?w3] =>
    destruct (update_stock_run selected data w3 Hfound) as (w4 & U & P & O & OI & N & Em & T)
  end.
  rewrite U. cbn in P, O, OI, N, Em, T.
  unfold commit, release, ret.
  eexists. split; [reflexivity |].
  cbn [db set_transaction log products orders order_items notifications emitted transaction].
  unfold selected in P. rewrite restock_selected in P by exact Hin.
  repeat split; assumption.
Qed.

(** The stock statements of a checked order write no negative stock. *)
Lemma restock_nonneg ps items data (qs : list (product num)) :
  Forall2 (fun it d =>
             exists p, product_of ps it = Some p /\ i_quantity it <= p_stock p /\
                       d = data_of p it)
          items data ->
  Forall (fun p => 0 <= p_stock p) qs ->
  Forall (fun p => 0 <= p_stock p) (fold_left (restock ps) data qs).
Proof.
  intros F2. revert qs.
  induction F2 as [| it d items data (p & F & Q & ->) _ IH]; intros qs Hqs; [exact Hqs |].
  cbn [fold_left]. apply IH. unfold restock. cbn [data_of d_product_id d_quantity].
  unfold product_of in F. destruct (find_id _ _ _ F) as [_ Eid].
  rewrite Eid, F. apply Forall_forall. intros q Hq.
  apply in_map_iff in Hq as (q0 & <- & Hq0).
  rewrite Forall_forall in Hqs.
  destruct (p_id q0 =? p_id p); [cbn; lia | now apply Hqs].
Qed.

(** The status handler: a missing status is answered 400 and nothing is
    touched; otherwise the normalised status is written to the rows of that
    id and the answer is 200, whether or not such a row exists. *)
Lemma put_orders_id_status_missing (id : Z) (status : Js.text) w :
  Js.truthy status = false ->
  put_orders_id_status id status w =
  (Return (res_status_json 400 (json_error "Status is required")), w).
Proof.
  destruct status as [| | s]; try reflexivity.
  cbn. destruct (String.eqb s EmptyString); [reflexivity | discriminate].
Qed.

Lemma put_orders_id_status_run (id : Z) (s : string) w :
  Js.truthy (Js.str s) = true ->
  exists w',
    put_orders_id_status id (Js.str s) w =
      (Return (res_json (json_message "Status updated!")), w') /\
    products (db w') = products (db w) /\
    orders (db w') = orders (snd (UPDATE_orders_SET_status (normalizedStatus s) id (db w))) /\
    order_items (db w') = order_items (db w).
Proof.
  intros T. cbn in T. unfold put_orders_id_status.
  destruct (String.eqb s EmptyString); [discriminate |].
  unfold try_catch, bind, query.
  cbn [UPDATE_orders_SET_status SELECT_orders_WHERE_id fst snd db set_db log].
  set (updated := map _ (orders (db w))).
  destruct (filter (fun o => o_id o =? id) (orders (set_orders updated (db w))))
    as [| o os].
  - eexists. split; [reflexivity |]. cbn. repeat split.
  - match goal with |- context [orderStatusNotification o ?w1] =>
      destruct (orderStatusNotification_run o w1) as (w2 & E & P & O & OI & _) end.
    rewrite E. eexists. split; [reflexivity |]. cbn in P, O, OI.
    repeat split; assumption.
Qed.

(** A statement that matches no row leaves the table as it is. *)
Lemma update_no_row (id : Z) (g : order num -> order num) (os : list (order num)) :
  filter (fun o => o_id o =? id) os = [] ->
  map (fun o => if o_id o =? id then g o else o) os = os.
Proof.
  induction os as [| o os IH]; [reflexivity |]. cbn [filter map].
  destruct (o_id o =? id); [discriminate |]. intros N. now rewrite IH.
Qed.

Lemma set_orders_same (d : database num) : set_orders (orders d) d = d.
Proof. destruct d. reflexivity. Qed.

Lemma set_db_same w (q : sql) : set_db (db w) (log q w) = log q w.
Proof. destruct w. reflexivity. Qed.

(** On an id that no order has, the handler still answers 200: it has run
    its two statements, changed no row and sent no notification. *)
Lemma put_orders_id_status_unknown (id : Z) (s : string) w :
  Js.truthy (Js.str s) = true ->
  filter (fun o => o_id o =? id) (orders (db w)) = [] ->
  put_orders_id_status id (Js.str s) w =
  (Return (res_json (json_message "Status updated!")),
   log (SELECT_FROM_orders_WHERE_id id)
     (log (UPDATE_orders_SET_status_WHERE_id (normalizedStatus s) id) w)).
Proof.
  intros T N. cbn in T. unfold put_orders_id_status.
  destruct (String.eqb s EmptyString); [discriminate |].
  unfold try_catch, bind, query.
  cbn [UPDATE_orders_SET_status SELECT_orders_WHERE_id fst snd].
  rewrite (update_no_row id _ _ N), set_orders_same, set_db_same.
  cbn [db log]. rewrite N. destruct w. reflexivity.
Qed.

End OrderTransaction.

Section OrderClaims.

Context {num : Type} `{JsNumber num}.

Implicit Types (items : list item) (w : world num).

Lemma fields_present_items (body : order_body) :
  fields_present body = true ->
  exists items, b_items body = Some items /\ items <> [] /\
                Js.truthy (b_user_name body) = true /\
                Js.truthy (b_payment_mode body) = true.
Proof.
  unfold fields_present, no_items. intros V.
  apply andb_true_iff in V as [V Hi]. apply andb_true_iff in V as [Hu Hp].
  destruct (b_items body) as [[| it items] |]; try discriminate.
  exists (it :: items). repeat split; [discriminate | assumption | assumption].
Qed.

(** What every answer of the order handler is: 400 with the world as it
    was, 500 with the tables as they were, or a committed order. *)
Lemma post_orders_cases (body : order_body) w :
  (fields_present body = false /\
   post_orders body w =
     (Return (res_status_json 400 (json_error "Missing required fields or items")), w)) \/
  (exists items e,
      b_items body = Some items /\
      items_map (products (db w)) items num_zero = Throw e /\
      post_orders body w =
        (Return (res_status_json 500 (json_error (message_of e))), rolled_back items w)) \/
  (exists items data w',
      b_items body = Some items /\
      Forall2 (fun it d =>
                 exists p, product_of (products (db w)) it = Some p /\
                           i_quantity it <= p_stock p /\ d = data_of p it)
              items data /\
      post_orders body w =
        (Return (res_json (json_order "Order placed!" (next_order_id (db w)))), w') /\
      products (db w') = fold_left (restock (products (db w))) data (products (db w)) /\
      orders (db w') =
        orders (db w) ++
          [{| o_id := next_order_id (db w); o_user_name := sql_param (b_user_name body);
              o_total := sum_totals (map d_total data);
              o_payment_mode := sql_param (b_payment_mode body);
              o_status := Js.str "pending" |}] /\
      order_items (db w') =
        order_items (db w) ++ map (row_of (next_order_id (db w))) data /\
      notifications (db w') = notifications (db w) /\
      emitted w' = emitted w).
Proof.
  destruct (fields_present body) eqn:V.
  - right. destruct (fields_present_items body V) as (items & Hitems & _).
    destruct (items_map (products (db w)) items num_zero) as [[data total] | e] eqn:E.
    + right.
      destruct (post_orders_commits body items w data total V Hitems E)
        as (w' & R & P & O & OI & N & Em & _).
      pose proof (items_map_returns _ _ _ _ _ E) as Hpass.
      destruct (items_map_passes (products (db w)) items num_zero Hpass) as (data' & E' & F2).
      rewrite E in E'. injection E' as <- ->.
      exists items, data, w'. repeat split; assumption.
    + left. exists items, e. repeat split; try assumption.
      now apply post_orders_throws.
  - left. split; [reflexivity | now apply post_orders_missing_fields].
Qed.

(** C1.  When the stock check fails for some line of the batch (its product
    does not exist, or its quantity exceeds the product's stock), the tables
    are afterwards exactly as before: no order row, no line row, no stock
    change.  The request, once past the required-fields test, is answered
    with the error of the first failing line. *)
Theorem post_orders_failed_check_rolls_back (body : order_body) items w :
  b_items body = Some items ->
  Exists (stock_check_fails (products (db w))) items ->
  db (snd (post_orders body w)) = db w /\
  (Js.truthy (b_user_name body) = true ->
   Js.truthy (b_payment_mode body) = true ->
   exists before it after,
     items = before ++ it :: after /\
     Forall (fun i => ~ stock_check_fails (products (db w)) i) before /\
     stock_check_fails (products (db w)) it /\
     fst (post_orders body w) =
       Return (res_status_json 500 (json_error (stock_error (products (db w)) it)))).
Proof.
  intros Hitems Hex.
  destruct (fields_present body) eqn:V.
  - destruct (items_map_fails (products (db w)) items num_zero Hex)
      as (before & it & after & D & Hb & Hf & E).
    rewrite (post_orders_throws body items w _ V Hitems E).
    split; [reflexivity |]. intros _ _. exists before, it, after. repeat split; assumption.
  - rewrite (post_orders_missing_fields body w V). split; [reflexivity |].
    intros Tu Tp. exfalso. unfold fields_present in V. rewrite Tu, Tp, Hitems in V.
    destruct items; [inversion Hex | discriminate].
Qed.

(** C4, as the code has it.  A request without customer name, without
    payment mode or without lines is answered 400 and leaves the world as it
    was: no call on the connection pool, no statement, no row changed.  The
    quantities of the lines are not looked at. *)
Theorem post_orders_missing_fields_untouched (body : order_body) w :
  Js.truthy (b_user_name body) = false \/
  Js.truthy (b_payment_mode body) = false \/
  no_items (b_items body) = true ->
  post_orders body w =
  (Return (res_status_json 400 (json_error "Missing required fields or items")), w).
Proof.
  intros C. apply post_orders_missing_fields. unfold fields_present.
  destruct C as [-> | [-> | ->]]; [reflexivity | |].
  - now rewrite andb_false_r.
  - now rewrite andb_false_r.
Qed.

(** C5, as the code has it.  Placing an order, committed or not, stores no
    notification and emits none, however low the stock it leaves. *)
Theorem post_orders_sends_no_alert (body : order_body) w :
  emitted (snd (post_orders body w)) = emitted w /\
  notifications (db (snd (post_orders body w))) = notifications (db w).
Proof.
  destruct (post_orders_cases body w)
    as [(_ & R) | [(items & e & _ & _ & R) | (items & data & w' & _ & _ & R & _ & _ & _ & N & E)]];
    rewrite R; cbn [snd]; [split; reflexivity | split; reflexivity | split; assumption].
Qed.

(** C7, as the code has it.  A status update without a status is answered
    400 and touches nothing.  One for an id that no order has is answered
    200 like any other: no row changes and no notification is sent. *)
Theorem put_orders_id_status_answers (id : Z) (status : Js.text) w :
  (Js.truthy status = false ->
   put_orders_id_status id status w =
   (Return (res_status_json 400 (json_error "Status is required")), w)) /\
  (Js.truthy status = true ->
   filter (fun o => o_id o =? id) (orders (db w)) = [] ->
   fst (put_orders_id_status id status w) = Return (res_json (json_message "Status updated!")) /\
   db (snd (put_orders_id_status id status w)) = db w /\
   emitted (snd (put_orders_id_status id status w)) = emitted w).
Proof.
  split.
  - apply put_orders_id_status_missing.
  - intros T N. destruct status as [| | s]; try discriminate.
    rewrite (put_orders_id_status_unknown id s w T N). repeat split.
Qed.

End OrderClaims.

(** ** The stock counter *)

Section Stock.

Context {num : Type} `{JsNumber num}.

Implicit Types (items : list item) (w : world num).

Lemma post_orders_stock_nonneg (body : order_body) w :
  stock_nonneg (db w) -> stock_nonneg (db (snd (post_orders body w))).
Proof.
  intros Hw.
  destruct (post_orders_cases body w)
    as [(_ & R) | [(items & e & _ & _ & R) | (items & data & w' & _ & F2 & R & P & _)]];
    rewrite R; cbn [snd]; try exact Hw.
  unfold stock_nonneg. rewrite P. now apply (restock_nonneg _ items).
Qed.

(** Each request keeps the stocks non-negative, when the stock it submits
    (for a product create or update) is not negative. *)
Lemma app_stock_nonneg (r : request num) w :
  stock_nonneg (db w) -> submits_nonneg_stock r -> stock_nonneg (db (snd (app r w))).
Proof.
  intros Hw Hr. destruct r as [body file | | id | id body file | body | id status]; cbn [app].
  - pose proof (post_products_run body file w) as R. destruct file as [f |].
    + destruct R as (w' & -> & P). cbn [snd]. unfold stock_nonneg. rewrite P.
      apply Forall_app. split; [exact Hw |]. constructor; [exact Hr | constructor].
    + rewrite R. exact Hw.
  - rewrite get_products_run. exact Hw.
  - rewrite get_products_id_run. exact Hw.
  - destruct (filter (fun p => p_id p =? id) (products (db w))) as [| prev others] eqn:F.
    + rewrite (put_products_id_not_found id body file w F). exact Hw.
    + destruct (put_products_id_run id body file w prev others F) as (w' & -> & P & _).
      cbn [snd]. unfold stock_nonneg. rewrite P. cbn.
      apply Forall_forall. intros q Hq. apply in_map_iff in Hq as (q0 & <- & Hq0).
      unfold stock_nonneg in Hw. rewrite Forall_forall in Hw.
      destruct (p_id q0 =? id); [exact Hr | now apply Hw].
  - now apply post_orders_stock_nonneg.
  - destruct (Js.truthy status) eqn:T.
    + destruct status as [| | s]; try discriminate.
      destruct (put_orders_id_status_run id s w T) as (w' & -> & P & _).
      cbn [snd]. unfold stock_nonneg. rewrite P. exact Hw.
    + rewrite (put_orders_id_status_missing id status w T). exact Hw.
Qed.

(** C2, as the code has it.  Through any sequence of requests in which the
    product creates and updates submit stocks that are not negative, no
    product ever has a negative stock; and an order with a line whose
    quantity exceeds the stock of its product is not placed. *)
Theorem stock_never_negative (rs : list (request num)) w :
  stock_nonneg (db w) ->
  Forall submits_nonneg_stock rs ->
  stock_nonneg (db (serve rs w)) /\
  (forall (body : order_body) items (it : item) (p : product num),
      b_items body = Some items ->
      In it items ->
      product_of (products (db w)) it = Some p ->
      i_quantity it > p_stock p ->
      status_of (fst (post_orders body w)) <> 200 /\
      db (snd (post_orders body w)) = db w).
Proof.
  intros Hw Hrs. split.
  - revert w Hw. induction Hrs as [| r rs Hr _ IH]; intros w Hw; [exact Hw |].
    cbn [serve]. apply IH. now apply app_stock_nonneg.
  - intros body items it p Hitems Hin Hp Hq.
    assert (Hex : Exists (stock_check_fails (products (db w))) items).
    { apply Exists_exists. exists it. split; [exact Hin |].
      unfold stock_check_fails. now rewrite Hp. }
    destruct (post_orders_cases body w)
      as [(_ & R) | [(its & e & _ & _ & R) | (its & data & w' & Hits & F2 & _)]].
    + rewrite R. split; [discriminate | reflexivity].
    + rewrite R. split; [discriminate | reflexivity].
    + exfalso. rewrite Hitems in Hits. injection Hits as <-.
      apply Exists_exists in Hex as (i & Hi & Hf).
      clear - F2 Hi Hf. induction F2 as [| i0 d items data (q & Fq & Qq & _) _ IH].
      * inversion Hi.
      * destruct Hi as [-> | Hi]; [| now apply IH].
        unfold stock_check_fails in Hf. rewrite Fq in Hf. lia.
Qed.

(** X1.  The total stored with a committed order is the sum of the totals
    stored with its lines, each the catalogue price times the quantity. *)
Lemma post_orders_total (body : order_body) w :
  status_of (fst (post_orders body w)) = 200 ->
  exists (placed : order num) (lines : list (order_item num)),
    orders (db (snd (post_orders body w))) = orders (db w) ++ [placed] /\
    order_items (db (snd (post_orders body w))) = order_items (db w) ++ lines /\
    o_total placed = sum_totals (map oi_total lines) /\
    Forall (fun l => l.(oi_total) = num_mul l.(oi_price) (Number l.(oi_quantity))) lines.
Proof.
  intros S.
  destruct (post_orders_cases body w)
    as [(_ & R) | [(its & e & _ & _ & R) | (its & data & w' & _ & F2 & R & _ & O & OI & _)]];
    rewrite R in S |- *; try discriminate.
  cbn [snd]. eexists. eexists. split; [exact O |]. split; [exact OI |]. split.
  - cbn [o_total]. rewrite map_map. reflexivity.
  - apply Forall_forall. intros l Hl. apply in_map_iff in Hl as (d & <- & Hd).
    clear - F2 Hd. induction F2 as [| it d0 items data (p & _ & _ & ->) _ IH].
    + inversion Hd.
    + destruct Hd as [<- | Hd]; [reflexivity | now apply IH].
Qed.

End Stock.

(** ** Lines that name distinct products *)

Section DistinctLines.

Context {num : Type} `{JsNumber num}.

Implicit Types (items : list item) (ps : list (product num)) (w : world num).








End DistinctLines.

(** ** The properties on the sample shop *)

Lemma post_orders_failed_check_rolls_back_witness :
  db (snd (post_orders (Sample.order_of [Sample.line 1 3; Sample.line 2 1]) (Sample.shop 10)))
  = db (Sample.shop 10).
Proof.
  apply (post_orders_failed_check_rolls_back
           (Sample.order_of [Sample.line 1 3; Sample.line 2 1])
           [Sample.line 1 3; Sample.line 2 1] (Sample.shop 10) eq_refl).
  apply Exists_cons_tl, Exists_cons_hd. exact I.
Defined.

Example post_orders_unknown_product :
  post_orders (Sample.order_of [Sample.line 1 3; Sample.line 2 1]) (Sample.shop 10) =
  (Return (res_status_json 500 (json_error "Product 2 not found")),
   rolled_back [Sample.line 1 3; Sample.line 2 1] (Sample.shop 10)).
Proof. reflexivity. Qed.

Example post_orders_not_enough_stock :
  post_orders (Sample.order_of [Sample.line 1 16]) (Sample.shop 15) =
  (Return (res_status_json 500 (json_error "Not enough stock for Rose")),
   rolled_back [Sample.line 1 16] (Sample.shop 15)).
Proof. reflexivity. Qed.

Lemma stock_never_negative_witness :
  stock_nonneg
    (db (serve [POST_products (Sample.form "Lily" 0) (Some Sample.image);
                PUT_products_id 1 (Sample.form "Rose" 12) None;
                POST_orders (Sample.order_of [Sample.line 1 12; Sample.line 2 0])]
           (Sample.shop 10))).
Proof.
  apply (stock_never_negative
           [POST_products (Sample.form "Lily" 0) (Some Sample.image);
            PUT_products_id 1 (Sample.form "Rose" 12) None;
            POST_orders (Sample.order_of [Sample.line 1 12; Sample.line 2 0])]
           (Sample.shop 10)).
  - constructor; [cbn; lia | constructor].
  - repeat constructor; cbn; lia.
Defined.

(** C2 fails as stated: a product update that submits a negative stock is
    stored as submitted. *)
Lemma put_products_id_stores_negative_stock :
  stock_nonneg (db (Sample.shop 10)) /\
  status_of (fst (put_products_id 1 (Sample.form "Rose" (-5)) None (Sample.shop 10))) = 200 /\
  map p_stock
    (products (db (serve [PUT_products_id 1 (Sample.form "Rose" (-5)) None] (Sample.shop 10))))
  = [-5] /\
  ~ stock_nonneg
      (db (serve [PUT_products_id 1 (Sample.form "Rose" (-5)) None] (Sample.shop 10))).
Proof.
  split; [constructor; [cbn; lia | constructor] |].
  split; [reflexivity |]. split; [reflexivity |].
  intros C. inversion C as [| ? ? C0 _]. cbn in C0. lia.
Qed.

(** C3 fails on the code: two lines for the same product.  The order is
    committed with the total of both lines, and each stock statement writes
    the stock read at the start minus one line's quantity: of a stock of 10,
    6 are ordered and 7 remain. *)
Theorem post_orders_duplicate_lines :
  let items := [Sample.line 1 3; Sample.line 1 3] in
  let r := post_orders (Sample.order_of items) (Sample.shop 10) in
  fst r = Return (res_json (json_order "Order placed!" 1)) /\
  map o_total (orders (db (snd r))) = [60] /\
  map oi_total (order_items (db (snd r))) = [30; 30] /\
  ordered_quantity 1 items = 6 /\
  map p_stock (products (db (snd r))) = [7] /\
  trace (snd r) =
    [db_getConnection; conn_beginTransaction; SELECT_FROM_products_WHERE_id_IN [1; 1];
     INSERT_INTO_orders; INSERT_INTO_order_items;
     UPDATE_products_SET_stock_WHERE_id 7 1; UPDATE_products_SET_stock_WHERE_id 7 1;
     conn_commit; conn_release].
Proof. repeat split. Qed.

(** The same slip sells more than there is: of a stock of 5, 6 are sold. *)
Example post_orders_oversells :
  let items := [Sample.line 1 3; Sample.line 1 3] in
  let r := post_orders (Sample.order_of items) (Sample.shop 5) in
  status_of (fst r) = 200 /\ ordered_quantity 1 items = 6 /\
  map p_stock (products (db (snd r))) = [2].
Proof. repeat split. Qed.

Example post_orders_round_trip :
  let w1 := snd (post_orders (Sample.order_of [Sample.line 1 15]) (Sample.shop 30)) in
  let r2 := post_orders (Sample.order_of [Sample.line 1 16]) w1 in
  map p_stock (products (db w1)) = [15] /\
  fst r2 = Return (res_status_json 500 (json_error "Not enough stock for Rose")) /\
  map p_stock (products (db (snd r2))) = [15].
Proof. repeat split. Qed.

Lemma post_orders_missing_fields_untouched_witness :
  post_orders {| b_user_name := Js.undefined; b_payment_mode := Js.str "cash";
                 b_items := Some [Sample.line 1 3] |} (Sample.shop 10) =
  (Return (res_status_json 400 (json_error "Missing required fields or items")),
   Sample.shop 10).
Proof.
  apply (post_orders_missing_fields_untouched
           {| b_user_name := Js.undefined; b_payment_mode := Js.str "cash";
              b_items := Some [Sample.line 1 3] |} (Sample.shop 10)).
  left. reflexivity.
Defined.

(** C4 fails as stated: a line with a quantity that is not positive passes
    the required-fields test; the order is committed, with a negative total,
    and the stock statement adds to the stock. *)
Lemma post_orders_accepts_negative_quantity :
  let r := post_orders (Sample.order_of [Sample.line 1 (-2)]) (Sample.shop 10) in
  fst r = Return (res_json (json_order "Order placed!" 1)) /\
  map o_total (orders (db (snd r))) = [-20] /\
  map p_stock (products (db (snd r))) = [12] /\
  trace (snd r) =
    [db_getConnection; conn_beginTransaction; SELECT_FROM_products_WHERE_id_IN [1];
     INSERT_INTO_orders; INSERT_INTO_order_items;
     UPDATE_products_SET_stock_WHERE_id 12 1; conn_commit; conn_release].
Proof. repeat split. Qed.

(** C5 fails as stated: an order that takes the stock from 25 to 15 is
    committed, and no notification is stored or emitted. *)
Lemma post_orders_low_stock_unannounced :
  let r := post_orders (Sample.order_of [Sample.line 1 10]) (Sample.shop 25) in
  fst r = Return (res_json (json_order "Order placed!" 1)) /\
  map p_stock (products (db (snd r))) = [15] /\
  15 < 20 /\
  emitted (snd r) = [] /\
  notifications (db (snd r)) = [].
Proof. repeat split. Qed.

Lemma put_orders_id_status_answers_witness :
  put_orders_id_status 7 Js.undefined (Sample.shop 25) =
    (Return (res_status_json 400 (json_error "Status is required")), Sample.shop 25) /\
  db (snd (put_orders_id_status 7 (Js.str "Delivered") (Sample.shop 25))) =
    db (Sample.shop 25).
Proof.
  split.
  - apply (put_orders_id_status_answers 7 Js.undefined (Sample.shop 25)). reflexivity.
  - apply (put_orders_id_status_answers 7 (Js.str "Delivered") (Sample.shop 25));
      reflexivity.
Defined.

(** C7 fails as stated: a status update for an id that no order has is
    answered 200, not 404. *)
Lemma put_orders_id_status_unknown_order_acknowledged :
  filter (fun o => o_id o =? 7) (orders (db (Sample.shop 25))) = [] /\
  fst (put_orders_id_status 7 (Js.str "Delivered") (Sample.shop 25)) =
    Return (res_json (json_message "Status updated!")) /\
  status_of (fst (put_orders_id_status 7 (Js.str "Delivered") (Sample.shop 25))) <> 404.
Proof. repeat split. discriminate. Qed.

(** A status that the normalisation turns into Cancelled/Returned, on an
    order that exists, sends one notification. *)
Example put_orders_id_status_cancelled :
  let w1 := snd (post_orders (Sample.order_of [Sample.line 1 10]) (Sample.shop 25)) in
  let r := put_orders_id_status 1 (Js.str "CANCELLED by customer") w1 in
  map o_status (orders (db (snd r))) = [Js.str "Cancelled/Returned"] /\
  map n_message (emitted (snd r)) = ["Order #1 for Ana has been cancelled/returned!"].
Proof. repeat split. Qed.

(** ** The variant *)

Section VariantFacts.

Context {num : Type} `{JsNumber num}.


(** X10.  It refuses, with 400 and without touching anything, exactly the
    forms the interface names: a missing field, a missing image, a price or
    a stock that is not a number. *)
Lemma variant_post_products_validates (body : Variant.product_body num)
    (file : option upload) (w : world num) :
  Js.truthy (Variant.b_name body) = false \/
  (forall n, Variant.b_price body <> Variant.number n) \/
  (forall n, Variant.b_stock body <> Variant.number n) \/
  file = None ->
  exists error,
    Variant.post_products body file w =
    (Return {| Variant.status := 400; Variant.body := Variant.json_error error |}, w).
Proof.
  intros C. unfold Variant.post_products, try_catch.
  destruct (Js.truthy (Variant.b_name body)), (Variant.b_price body) as [| | pr],
    (Variant.b_stock body) as [| | st], file as [f |];
    try (eexists; reflexivity).
  exfalso. destruct C as [C | [C | [C | C]]];
    [discriminate | now apply (C pr) | now apply (C st) | discriminate].
Qed.

End VariantFacts.

(** The variant update handler alerts on every write of a low stock, the
    one of [index.js] on the crossing only. *)
Example variant_put_products_id_5_to_3 :
  let form := {| Variant.b_name := Js.str "Rose"; Variant.b_price := Variant.absent;
                 Variant.b_stock := Variant.number 3; Variant.b_category := Js.undefined;
                 Variant.b_description := Js.undefined |} in
  map n_message (emitted (snd (Variant.put_products_id 1 form None (Sample.shop 5)))) =
    ["Product 'Rose' is low on supplies!"] /\
  emitted (snd (put_products_id 1 (Sample.form "Rose" 3) None (Sample.shop 5))) = [].
Proof. split; reflexivity. Qed.

(** * Further properties *)

(** ** Explicit results of the handlers *)

Section Explicit.

Context {num : Type} `{JsNumber num}.

Implicit Types (items : list item) (ps selected : list (product num))
  (data : list (order_item_data num)) (w : world num).

Lemma sendNotification_eq (type : string) (reference_id : Z) (message : string) w :
  sendNotification type reference_id message w =
  (Return tt,
   {| db := snd (INSERT_notification type reference_id message (db w));
      transaction := transaction w;
      trace := trace w ++ [INSERT_INTO_notifications];
      emitted := emitted w ++ [notification_in w type reference_id message] |}).
Proof. reflexivity. Qed.

Lemma update_stock_eq selected data w :
  Forall (fun i => find (fun p => p_id p =? d_product_id i) selected <> None) data ->
  update_stock selected data w =
  (Return tt,
   {| db := set_products (fold_left (restock selected) data (products (db w))) (db w);
      transaction := transaction w;
      trace := trace w ++ stock_statements selected data;
      emitted := emitted w |}).
Proof.
  revert w. induction data as [| i data IH]; intros w Hfound.
  - cbn. rewrite app_nil_r. destruct w as [[] ? ? ?]. reflexivity.
  - inversion Hfound as [| ? ? Hi Hrest]; subst.
    cbn [update_stock fold_left stock_statements flat_map]. unfold restock at 2.
    destruct (find (fun p => p_id p =? d_product_id i) selected) as [product |];
      [| congruence].
    unfold bind, query. cbn [UPDATE_products_SET_stock fst snd].
    rewrite IH by exact Hrest. cbn. rewrite <- app_assoc. reflexivity.
Qed.

Lemma stock_statements_selected ps (ids : list Z) data :
  Forall (fun i => In (d_product_id i) ids) data ->
  stock_statements (filter (fun p => existsb (Z.eqb (p_id p)) ids) ps) data =
  stock_statements ps data.
Proof.
  induction data as [| i data IH]; intros Hin; [reflexivity |].
  inversion Hin; subst. cbn [stock_statements flat_map].
  rewrite find_selected by assumption. f_equal. now apply IH.
Qed.

Lemma stock_statements_of_items ps items data :
  Forall2 (fun it d =>
             exists p, product_of ps it = Some p /\ i_quantity it <= p_stock p /\
                       d = data_of p it)
          items data ->
  stock_statements ps data = flat_map (stock_statement_of ps) items.
Proof.
  induction 1 as [| it d items data (p & F & _ & ->) _ IH]; [reflexivity |].
  cbn [stock_statements flat_map]. unfold stock_statement_of at 1. rewrite F.
  cbn [data_of d_product_id d_quantity]. unfold product_of in F.
  assert (F' : find (fun q => p_id q =? p_id p) ps = Some p).
  { destruct (find_id _ _ _ F) as [_ Eid]. rewrite Eid. exact F. }
  rewrite F'. cbn [app]. f_equal. exact IH.
Qed.

(** The world a committed order leaves. *)
Lemma post_orders_commit_eq (body : order_body) items w data (total : num) :
  fields_present body = true ->
  b_items body = Some items ->
  items_map (products (db w)) items num_zero = Return (data, total) ->
  post_orders body w =
  (Return (res_json (json_order "Order placed!" (next_order_id (db w)))),
   {| db :=
        let d2 :=
          snd (INSERT_order_items (map (row_of (next_order_id (db w))) data)
                 (snd (INSERT_order (b_user_name body) total (b_payment_mode body) (db w))))
        in
        set_products (fold_left (restock (products (db w))) data (products (db w))) d2;
      transaction := None;
      trace :=
        trace w ++
          [db_getConnection; conn_beginTransaction;
           SELECT_FROM_products_WHERE_id_IN (map i_product_id items);
           INSERT_INTO_orders; INSERT_INTO_order_items] ++
          flat_map (stock_statement_of (products (db w))) items ++
          [conn_commit; conn_release];
      emitted := emitted w |}).
Proof.
  intros V Hitems E.
  pose proof (items_map_returns _ _ _ _ _ E) as Hpass.
  destruct (items_map_passes (products (db w)) items num_zero Hpass) as (data' & E' & F2).
  rewrite E in E'. injection E' as <- ->.
  pose proof (data_product_ids _ _ _ F2) as Hids.
  assert (Hin : Forall (fun i => In (d_product_id i) (map i_product_id items)) data).
  { apply Forall_forall. intros i Hi. rewrite <- Hids. now apply in_map. }
  set (selected := filter (fun p => existsb (Z.eqb (p_id p)) (map i_product_id items))
                     (products (db w))).
  assert (Hfound : Forall (fun i => find (fun p => p_id p =? d_product_id i) selected <> None)
                     data).
  { pose proof (data_found _ _ _ F2) as Hf. rewrite Forall_forall in Hf, Hin |- *.
    intros i Hi. unfold selected. rewrite find_selected by (apply Hin; exact Hi).
    apply Hf. exact Hi. }
  unfold post_orders. rewrite post_orders_guard, V, Hitems.
  cbn [negb]. unfold bind, finally, try_catch, getConnection, beginTransaction, lift.
  unfold query at 1. cbn [SELECT_products_WHERE_id_IN fst snd].
  cbn [db set_db log set_transaction].
  rewrite items_map_selected by apply incl_refl. rewrite E.
  unfold query. cbn [INSERT_order INSERT_order_items fst snd].
  fold selected.
  match goal with |- context [update_stock selected ?dt ?w3] =>
    rewrite (update_stock_eq selected dt w3 Hfound) end.
  unfold commit, release, ret. cbn.
  unfold selected. rewrite restock_selected, stock_statements_selected by exact Hin.
  rewrite (stock_statements_of_items _ _ _ F2).
  unfold log, set_transaction. cbn [db transaction trace emitted].
  rewrite <- !app_assoc. reflexivity.
Qed.

End Explicit.

(** ** More on the order transaction *)

Section OrderFacts.

Context {num : Type} `{JsNumber num}.

Implicit Types (items : list item) (w : world num).

(** The three answers of the order handler, with the world each leaves. *)
Lemma post_orders_explicit (body : order_body) w :
  (fields_present body = false /\
   post_orders body w =
     (Return (res_status_json 400 (json_error "Missing required fields or items")), w)) \/
  (exists items e,
      b_items body = Some items /\
      post_orders body w =
        (Return (res_status_json 500 (json_error (message_of e))), rolled_back items w)) \/
  (exists items data,
      b_items body = Some items /\
      Forall2 (fun it d =>
                 exists p, product_of (products (db w)) it = Some p /\
                           i_quantity it <= p_stock p /\ d = data_of p it)
              items data /\
      post_orders body w =
        (Return (res_json (json_order "Order placed!" (next_order_id (db w)))),
         {| db :=
              let d2 :=
                snd (INSERT_order_items (map (row_of (next_order_id (db w))) data)
                       (snd (INSERT_order (b_user_name body) (sum_totals (map d_total data))
                               (b_payment_mode body) (db w))))
              in
              set_products
                (fold_left (restock (products (db w))) data (products (db w))) d2;
            transaction := None;
            trace :=
              trace w ++
                [db_getConnection; conn_beginTransaction;
                 SELECT_FROM_products_WHERE_id_IN (map i_product_id items);
                 INSERT_INTO_orders; INSERT_INTO_order_items] ++
                flat_map (stock_statement_of (products (db w))) items ++
                [conn_commit; conn_release];
            emitted := emitted w |})).
Proof.
  destruct (fields_present body) eqn:V.
  - right. destruct (fields_present_items body V) as (items & Hitems & _).
    destruct (items_map (products (db w)) items num_zero) as [[data total] | e] eqn:E.
    + right.
      pose proof (items_map_returns _ _ _ _ _ E) as Hpass.
      destruct (items_map_passes (products (db w)) items num_zero Hpass) as (data' & E' & F2).
      pose proof E as E0. rewrite E' in E0. injection E0 as -> <-.
      exists items, data. split; [exact Hitems |]. split; [exact F2 |].
      exact (post_orders_commit_eq body items w data _ V Hitems E).
    + left. exists items, e. split; [exact Hitems |]. now apply post_orders_throws.
  - left. split; [reflexivity | now apply post_orders_missing_fields].
Qed.

(** X3.  A committed order stores one order row, with the next order id,
    the status pending and the customer as sent, and one line row per line
    of the request, in the order of the request: each carries the order id,
    the product id and quantity of its line, and the name and price the
    catalogue had for that product when the order was placed. *)
Theorem post_orders_snapshots (body : order_body) w :
  status_of (fst (post_orders body w)) = 200 ->
  exists items (placed : order num) (lines : list (order_item num)),
    b_items body = Some items /\
    fst (post_orders body w) = Return (res_json (json_order "Order placed!" (o_id placed))) /\
    orders (db (snd (post_orders body w))) = orders (db w) ++ [placed] /\
    o_id placed = next_order_id (db w) /\
    o_status placed = Js.str "pending" /\
    o_user_name placed = sql_param (b_user_name body) /\
    o_payment_mode placed = sql_param (b_payment_mode body) /\
    order_items (db (snd (post_orders body w))) = order_items (db w) ++ lines /\
    Forall2 (fun it l =>
               oi_order_id l = o_id placed /\
               oi_product_id l = i_product_id it /\
               oi_quantity l = i_quantity it /\
               exists p, product_of (products (db w)) it = Some p /\
                         oi_product_name l = p_name p /\ oi_price l = p_price p)
            items lines.
Proof.
  intros S.
  destruct (post_orders_explicit body w)
    as [(_ & R) | [(its & e & _ & R) | (its & data & Hits & F2 & R)]];
    rewrite R in S |- *; try discriminate.
  cbn [fst snd db].
  exists its,
    {| o_id := next_order_id (db w); o_user_name := sql_param (b_user_name body);
       o_total := sum_totals (map d_total data);
       o_payment_mode := sql_param (b_payment_mode body); o_status := Js.str "pending" |},
    (map (row_of (next_order_id (db w))) data).
  split; [exact Hits |]. do 7 (split; [reflexivity |]).
  clear - F2. induction F2 as [| it d items data (p & F & _ & ->) _ IH]; cbn [map].
  - constructor.
  - constructor; [| exact IH]. cbn. repeat split.
    + unfold product_of in F. now destruct (find_id _ _ _ F).
    + exists p. repeat split. exact F.
Qed.

(** X4.  An order request that fails the required-fields test touches
    nothing.  Every other one takes one connection, begins one transaction
    and selects the products of its lines; it then either inserts the order
    and its lines, runs one stock statement per line and commits, or rolls
    back at once; the connection is released last and no transaction stays
    open. *)
Theorem post_orders_connection_discipline (body : order_body) w :
  (status_of (fst (post_orders body w)) = 400 /\ snd (post_orders body w) = w) \/
  (exists items statements closing,
      b_items body = Some items /\
      trace (snd (post_orders body w)) =
        trace w ++
          [db_getConnection; conn_beginTransaction;
           SELECT_FROM_products_WHERE_id_IN (map i_product_id items)] ++
          statements ++ [closing; conn_release] /\
      transaction (snd (post_orders body w)) = None /\
      ((status_of (fst (post_orders body w)) = 200 /\ closing = conn_commit /\
        statements =
          INSERT_INTO_orders :: INSERT_INTO_order_items ::
            flat_map (stock_statement_of (products (db w))) items) \/
       (status_of (fst (post_orders body w)) = 500 /\ closing = conn_rollback /\
        statements = []))).
Proof.
  destruct (post_orders_explicit body w)
    as [(_ & R) | [(its & e & Hits & R) | (its & data & Hits & _ & R)]]; rewrite R.
  - left. split; reflexivity.
  - right. exists its, [], conn_rollback. split; [exact Hits |].
    split; [reflexivity |]. split; [reflexivity |]. right. repeat split.
  - right. eexists its, _, conn_commit. split; [exact Hits |].
    split; [| split; [reflexivity |]; left; repeat split].
    cbn [snd trace]. cbn [app]. reflexivity.
Qed.

End OrderFacts.

(** ** Status updates and their notifications *)

Section StatusFacts.

Context {num : Type} `{JsNumber num}.

Implicit Types (w : world num) (o : order num).

Lemma normalizedStatus_by_keyword (s : string) :
  normalizedStatus s =
  if Js.test_i "cancelled" s then "Cancelled/Returned"
  else if Js.test_i "delivered" s then "Delivered"
  else if Js.test_i "pending" s then "Pending"
  else Js.trim s.
Proof.
  unfold normalizedStatus.
  rewrite <- (test_i_trim "cancelled" s), <- (test_i_trim "delivered" s),
    <- (test_i_trim "pending" s) by (reflexivity || discriminate).
  destruct (Js.test_i "cancelled" (Js.trim s)); [reflexivity |].
  destruct (Js.test_i "delivered" (Js.trim s)); [reflexivity |].
  destruct (Js.test_i "pending" (Js.trim s)); reflexivity.
Qed.

Lemma orderStatusNotification_normalized o (s : string) w :
  orderStatusNotification (with_status (normalizedStatus s) o) w =
  match status_message o s with
  | Some m => sendNotification "status" (o_id o) m w
  | None => (Return tt, w)
  end.
Proof.
  rewrite normalizedStatus_by_keyword. unfold status_message.
  destruct (Js.test_i "cancelled" s) eqn:C; [reflexivity |].
  destruct (Js.test_i "delivered" s) eqn:D; [reflexivity |].
  destruct (Js.test_i "pending" s) eqn:P; [reflexivity |].
  unfold orderStatusNotification. cbn [with_status o_status o_id o_user_name].
  pose proof (test_i_trim "delivered" s eq_refl) as Td.
  pose proof (test_i_trim "cancelled" s eq_refl) as Tc.
  pose proof (test_i_trim "returned" s eq_refl) as Tr.
  unfold Js.test_i in Td, Tc, Tr. unfold Js.test_i in C, D.
  rewrite Td, Tc, Tr by discriminate. fold (Js.test_i "returned" s).
  rewrite C, D. cbn [orb].
  destruct (String.eqb (Js.trim s) EmptyString) eqn:E.
  - apply String.eqb_eq in E.
    assert (R : Js.test_i "returned" s = false).
    { rewrite <- (test_i_trim "returned" s) by (reflexivity || discriminate).
      rewrite E. reflexivity. }
    rewrite R. reflexivity.
  - destruct (Js.test_i "returned" s); reflexivity.
Qed.

Lemma filter_map_update (id : Z) (g : order num -> order num) (os : list (order num)) :
  (forall o, o_id (g o) = o_id o) ->
  filter (fun o => o_id o =? id) (map (fun o => if o_id o =? id then g o else o) os) =
  map g (filter (fun o => o_id o =? id) os).
Proof.
  intros Hg. induction os as [| o os IH]; [reflexivity |].
  cbn [map filter]. destruct (o_id o =? id) eqn:E.
  - rewrite Hg, E. cbn [map]. now rewrite IH.
  - rewrite E. exact IH.
Qed.

(** The status handler on an order that exists. *)
Lemma put_orders_id_status_found (id : Z) (s : string) w o (others : list (order num)) :
  Js.truthy (Js.str s) = true ->
  filter (fun o => o_id o =? id) (orders (db w)) = o :: others ->
  fst (put_orders_id_status id (Js.str s) w) =
    Return (res_json (json_message "Status updated!")) /\
  emitted (snd (put_orders_id_status id (Js.str s) w)) =
    emitted w ++ status_notifications w o s /\
  db (snd (put_orders_id_status id (Js.str s) w)) =
    (let d1 := snd (UPDATE_orders_SET_status (normalizedStatus s) id (db w)) in
     match status_message o s with
     | Some m => snd (INSERT_notification "status" (o_id o) m d1)
     | None => d1
     end).
Proof.
  intros T F. cbn in T. unfold put_orders_id_status.
  destruct (String.eqb s EmptyString); [discriminate |].
  unfold try_catch, bind, query.
  cbn [UPDATE_orders_SET_status SELECT_orders_WHERE_id fst snd db set_db log set_orders orders].
  fold (@with_status num (normalizedStatus s)).
  rewrite (filter_map_update id (with_status (normalizedStatus s)) _ (fun _ => eq_refl)), F.
  cbn [map]. rewrite orderStatusNotification_normalized.
  unfold status_notifications.
  destruct (status_message o s) as [m |].
  - rewrite sendNotification_eq. cbn. repeat split.
  - cbn. rewrite !app_nil_r. repeat split.
Qed.


End StatusFacts.


(** ** Product writes *)

Section ProductFacts.

Context {num : Type} `{JsNumber num}.

Implicit Types (w : world num).

Lemma post_products_db (body : product_body num) (f : upload) w :
  db (snd (post_products body (Some f) w)) =
  (let d1 := snd (INSERT_product (b_name body) (b_price body) (b_stock body)
                    (b_category body) (b_description body)
                    (Js.or (path f) (secure_url f)) (db w)) in
   if b_stock body <? 20
   then snd (INSERT_notification "low on supplies" (next_product_id (db w))
               ("Product '" ++ Js.template (b_name body) ++ "' is low on supplies!")%string
               d1)
   else d1) /\
  emitted (snd (post_products body (Some f) w)) =
    emitted w ++
      (if b_stock body <? 20
       then [low_stock_alert w (next_product_id (db w)) (b_name body)]
       else []).
Proof.
  unfold post_products, try_catch, bind, query, unbound, throw, checkLowStock.
  cbn [INSERT_product fst snd].
  destruct (b_stock body <? 20).
  - rewrite sendNotification_eq. cbn. split; reflexivity.
  - cbn. rewrite app_nil_r. split; reflexivity.
Qed.

(** X6.  A product creation that comes with an image stores and emits one
    low-stock alert about the new product when the submitted stock is below
    20, and none otherwise. *)
Theorem post_products_alerts_when_low (body : product_body num) (f : upload) w :
  emitted (snd (post_products body (Some f) w)) =
    emitted w ++
      (if b_stock body <? 20
       then [low_stock_alert w (next_product_id (db w)) (b_name body)]
       else []) /\
  notifications (db (snd (post_products body (Some f) w))) =
    notifications (db w) ++
      (if b_stock body <? 20
       then [low_stock_alert w (next_product_id (db w)) (b_name body)]
       else []).
Proof.
  destruct (post_products_db body f w) as [D E]. split; [exact E |].
  rewrite D. destruct (b_stock body <? 20); cbn; [reflexivity | now rewrite app_nil_r].
Qed.

Lemma put_products_id_db (id : Z) (body : product_body num) (file : option upload) w
    (prev : product num) (others : list (product num)) :
  filter (fun p => p_id p =? id) (products (db w)) = prev :: others ->
  db (snd (put_products_id id body file w)) =
  (let image_url :=
     match file with
     | Some f => Js.or (path f) (secure_url f)
     | None => b_existingImageUrl body
     end in
   let d1 := snd (UPDATE_product (b_name body) (b_price body) (b_stock body)
                    (b_category body) (b_description body) image_url id (db w)) in
   if (b_stock body <? 20) && (p_stock prev >=? 20)
   then snd (INSERT_notification "low on supplies" id
               ("Product '" ++ Js.template (Js.or (b_name body) (p_name prev))
                  ++ "' is low on supplies!")%string d1)
   else d1).
Proof.
  intros F. unfold put_products_id, try_catch, bind.
  unfold query at 1, SELECT_products_WHERE_id. cbn [fst snd]. rewrite F.
  unfold query. cbn [UPDATE_product fst snd].
  destruct ((b_stock body <? 20) && (p_stock prev >=? 20)) eqn:C.
  - apply andb_true_iff in C as [C _]. unfold checkLowStock. rewrite C.
    rewrite sendNotification_eq. reflexivity.
  - reflexivity.
Qed.

(** X7.  An update of a product that exists overwrites all six columns of
    its row with what the form carries: an absent name, category or
    description is stored as NULL, and so is the image URL when no file is
    uploaded and no existing URL is sent.  The ids of the catalogue, its
    other rows, the orders and their lines stay as they were. *)
Theorem put_products_id_overwrites (id : Z) (body : product_body num) (file : option upload)
    w (prev : product num) (others : list (product num)) :
  filter (fun p => p_id p =? id) (products (db w)) = prev :: others ->
  let d' := db (snd (put_products_id id body file w)) in
  let image_url :=
    match file with
    | Some f => Js.or (path f) (secure_url f)
    | None => b_existingImageUrl body
    end in
  products d' =
    map (fun p =>
           if p_id p =? id
           then {| p_id := p_id p; p_name := sql_param (b_name body);
                   p_price := b_price body; p_stock := b_stock body;
                   p_category := sql_param (b_category body);
                   p_description := sql_param (b_description body);
                   p_image_url := sql_param image_url |}
           else p)
        (products (db w)) /\
  map p_id (products d') = map p_id (products (db w)) /\
  orders d' = orders (db w) /\
  order_items d' = order_items (db w).
Proof.
  intros F d' image_url. subst d'. rewrite (put_products_id_db id body file w prev others F).
  fold image_url. cbv zeta.
  assert (P : products
                (if (b_stock body <? 20) && (p_stock prev >=? 20)
                 then snd (INSERT_notification "low on supplies" id
                             ("Product '" ++ Js.template (Js.or (b_name body) (p_name prev))
                                ++ "' is low on supplies!")%string
                             (snd (UPDATE_product (b_name body) (b_price body) (b_stock body)
                                     (b_category body) (b_description body) image_url id
                                     (db w))))
                 else snd (UPDATE_product (b_name body) (b_price body) (b_stock body)
                             (b_category body) (b_description body) image_url id (db w))) =
              products (snd (UPDATE_product (b_name body) (b_price body) (b_stock body)
                               (b_category body) (b_description body) image_url id (db w)))).
  { destruct (_ && _); reflexivity. }
  split; [rewrite P; reflexivity |]. split.
  - rewrite P. cbn. rewrite map_map. apply map_ext. intros p.
    destruct (p_id p =? id); reflexivity.
  - destruct (_ && _); split; reflexivity.
Qed.

End ProductFacts.

Lemma put_products_id_overwrites_witness :
  map p_image_url
    (products (db (snd (put_products_id 1 (Sample.form "Rose" 30) None (Sample.shop 25)))))
  = [Js.null].
Proof.
  pose proof (put_products_id_overwrites 1 (Sample.form "Rose" 30) None (Sample.shop 25)
                (Sample.rose 25) [] eq_refl) as (P & _).
  rewrite P. reflexivity.
Defined.

(** ** Keys *)

Section Keys.

Context {num : Type} `{JsNumber num}.

Implicit Types (w : world num) (d : database num).

Lemma keys_step_refl d : keys_step d d.
Proof. repeat split; left; split; reflexivity. Qed.

Lemma restock_ids (selected ps : list (product num)) (data : list (order_item_data num)) :
  map p_id (fold_left (restock selected) data ps) = map p_id ps.
Proof.
  revert ps. induction data as [| i data IH]; intros ps; [reflexivity |].
  cbn [fold_left]. rewrite IH. unfold restock.
  destruct (find _ selected) as [product |]; [| reflexivity].
  rewrite map_map. apply map_ext. intros p. destruct (p_id p =? p_id product); reflexivity.
Qed.

Lemma update_ids (f : product num -> product num) (ps : list (product num)) :
  (forall p, p_id (f p) = p_id p) -> map p_id (map f ps) = map p_id ps.
Proof. intros Hf. rewrite map_map. apply map_ext. exact Hf. Qed.

Lemma update_order_ids (f : order num -> order num) (os : list (order num)) :
  (forall o, o_id (f o) = o_id o) -> map o_id (map f os) = map o_id os.
Proof. intros Hf. rewrite map_map. apply map_ext. exact Hf. Qed.

(** Each request keeps the ids of every table and adds at most one row to
    each, keyed by the table's counter. *)
Lemma app_keys_step (r : request num) w : keys_step (db w) (db (snd (app r w))).
Proof.
  destruct r as [body file | | id | id body file | body | id status]; cbn [app].
  - destruct file as [f |].
    + destruct (post_products_db body f w) as [-> _]. cbv zeta.
      destruct (b_stock body <? 20); cbn; unfold keys_step; cbn.
      * split; [right; rewrite map_app; split; reflexivity |].
        split; [left; split; reflexivity |]. right. rewrite map_app. split; reflexivity.
      * split; [right; rewrite map_app; split; reflexivity |].
        split; left; split; reflexivity.
    + exact (keys_step_refl (db w)).
  - rewrite get_products_run. apply keys_step_refl.
  - rewrite get_products_id_run. apply keys_step_refl.
  - destruct (filter (fun p => p_id p =? id) (products (db w))) as [| prev others] eqn:F.
    + rewrite (put_products_id_not_found id body file w F). apply keys_step_refl.
    + rewrite (put_products_id_db id body file w prev others F). cbv zeta.
      destruct (_ && _); unfold keys_step; cbn;
        rewrite update_ids by (intros p; destruct (p_id p =? id); reflexivity).
      * split; [left; split; reflexivity |]. split; [left; split; reflexivity |].
        right. rewrite map_app. split; reflexivity.
      * repeat split; left; split; reflexivity.
  - destruct (post_orders_explicit body w)
      as [(_ & R) | [(its & e & _ & R) | (its & data & _ & _ & R)]]; rewrite R.
    + apply keys_step_refl.
    + apply keys_step_refl.
    + unfold keys_step. cbn. rewrite restock_ids.
      split; [left; split; reflexivity |].
      split; [right; rewrite map_app; split; reflexivity |]. left. split; reflexivity.
  - destruct (Js.truthy status) eqn:T.
    + destruct status as [| | s]; try discriminate.
      destruct (filter (fun o => o_id o =? id) (orders (db w))) as [| o others] eqn:F.
      * rewrite (put_orders_id_status_unknown id s w T F). apply keys_step_refl.
      * destruct (put_orders_id_status_found id s w o others T F) as (_ & _ & ->).
        cbv zeta. destruct (status_message o s); unfold keys_step; cbn;
          rewrite update_order_ids by (intros x; destruct (o_id x =? id); reflexivity).
        -- split; [left; split; reflexivity |]. split; [left; split; reflexivity |].
           right. rewrite map_app. split; reflexivity.
        -- repeat split; left; split; reflexivity.
    + rewrite (put_orders_id_status_missing id status w T). apply keys_step_refl.
Qed.

Lemma grows_keeps_keys (ids ids' : list Z) (next next' : Z) :
  grows ids next ids' next' ->
  Forall (fun i => i < next) ids /\ NoDup ids ->
  Forall (fun i => i < next') ids' /\ NoDup ids'.
Proof.
  intros [[-> ->] | [-> ->]] [B U]; [split; assumption |]. split.
  - apply Forall_app. split.
    + eapply Forall_impl; [| exact B]. cbn. intros. lia.
    + constructor; [lia | constructor].
  - apply NoDup_app; [exact U | repeat constructor; intros [] | ].
    intros i Hi [<- | []]. rewrite Forall_forall in B. specialize (B _ Hi). lia.
Qed.

(** X8.  Through any sequence of requests, every product, order and
    notification id stays below its table's counter, and no two rows of a
    table share an id. *)
Theorem keys_stay_unique (rs : list (request num)) w :
  well_keyed (db w) -> well_keyed (db (serve rs w)).
Proof.
  revert w. induction rs as [| r rs IH]; intros w Hw; [exact Hw |].
  cbn [serve]. apply IH.
  destruct (app_keys_step r w) as (Gp & Go & Gn). destruct Hw as (Kp & Ko & Kn).
  repeat split;
    first [ apply (grows_keeps_keys _ _ _ _ Gp Kp)
          | apply (grows_keeps_keys _ _ _ _ Go Ko)
          | apply (grows_keeps_keys _ _ _ _ Gn Kn) ].
Qed.

End Keys.

Lemma keys_stay_unique_witness :
  well_keyed
    (db (serve [POST_products (Sample.form "Lily" 5) (Some Sample.image);
                POST_orders (Sample.order_of [Sample.line 1 10; Sample.line 2 1]);
                PUT_orders_id_status 1 (Js.str "delivered")]
           (Sample.shop 25))).
Proof.
  apply (keys_stay_unique
           [POST_products (Sample.form "Lily" 5) (Some Sample.image);
            POST_orders (Sample.order_of [Sample.line 1 10; Sample.line 2 1]);
            PUT_orders_id_status 1 (Js.str "delivered")]
           (Sample.shop 25)).
  unfold well_keyed. cbn. repeat split; repeat constructor; (lia || tauto).
Defined.

(** ** Normalising twice *)

Section Idempotence.

Import Js.

Lemma trimStart_idempotent (s : string) : trimStart (trimStart s) = trimStart s.
Proof.
  induction s as [| c s IH]; [reflexivity |]. cbn [trimStart].
  destruct (isWhiteSpace c) eqn:E; [exact IH |]. cbn [trimStart]. now rewrite E.
Qed.

Lemma trimEnd_idempotent (s : string) : trimEnd (trimEnd s) = trimEnd s.
Proof.
  induction s as [| c s IH]; [reflexivity |]. rewrite trimEnd_cons.
  destruct (String.eqb (trimEnd s) EmptyString && isWhiteSpace c) eqn:E; [reflexivity |].
  rewrite trimEnd_cons, IH, E. reflexivity.
Qed.

(** Trimming the end keeps a first character that is not white space. *)
Lemma trimStart_trimEnd (s : string) :
  trimStart s = s -> trimStart (trimEnd s) = trimEnd s.
Proof.
  destruct s as [| c s]; [reflexivity |]. cbn [trimStart].
  destruct (isWhiteSpace c) eqn:E.
  - intros C. exfalso. apply (f_equal String.length) in C.
    assert (L : forall t, (String.length (trimStart t) <= String.length t)%nat).
    { induction t as [| a t IHt]; [reflexivity |]. cbn [trimStart].
      destruct (isWhiteSpace a); cbn [String.length]; lia. }
    specialize (L s). cbn [String.length] in C. lia.
  - intros _. rewrite trimEnd_cons, E, andb_false_r. cbn [trimStart]. now rewrite E.
Qed.

Lemma trim_idempotent (s : string) : trim (trim s) = trim s.
Proof.
  unfold trim. rewrite (trimStart_trimEnd (trimStart s) (trimStart_idempotent s)).
  apply trimEnd_idempotent.
Qed.

(** X12.  Normalising a status that is already normalised changes nothing:
    sending back the status the server stored stores the same status. *)
Theorem normalizedStatus_idempotent (s : string) :
  normalizedStatus (normalizedStatus s) = normalizedStatus s.
Proof.
  rewrite (normalizedStatus_by_keyword s).
  destruct (test_i "cancelled" s) eqn:C; [reflexivity |].
  destruct (test_i "delivered" s) eqn:D; [reflexivity |].
  destruct (test_i "pending" s) eqn:P; [reflexivity |].
  rewrite normalizedStatus_by_keyword.
  rewrite !test_i_trim by (reflexivity || discriminate).
  rewrite C, D, P. apply trim_idempotent.
Qed.

End Idempotence.

(** ** The variant update *)

Section VariantUpdate.

Context {num : Type} `{JsNumber num}.

(** X11.  The variant update handler, on a product that exists and a form
    whose price and stock, where present, are numbers, keeps the stored
    value of every field the form leaves out (name, price, stock, category,
    description, and the image when no file is uploaded), and sends one
    low-stock alert whenever the resulting stock is below 20, whether or not
    the stock was already low. *)
Theorem variant_put_products_id_keeps_absent_fields (id : Z)
    (body : Variant.product_body num) (file : option upload) (w : world num)
    (stored : product num) (others : list (product num)) (priceNum : num) (stockNum : Z) :
  filter (fun p => p_id p =? id) (products (db w)) = stored :: others ->
  Variant.or_column (Variant.b_price body) (p_price stored) = Variant.number priceNum ->
  Variant.or_column (Variant.b_stock body) (p_stock stored) = Variant.number stockNum ->
  let name := Js.or (Variant.b_name body) (p_name stored) in
  let updated :=
    {| p_id := id; p_name := name; p_price := priceNum; p_stock := stockNum;
       p_category := Js.or (Variant.b_category body) (p_category stored);
       p_description := Js.or (Variant.b_description body) (p_description stored);
       p_image_url :=
         match file with
         | Some f => path f
         | None => p_image_url stored
         end |} in
  fst (Variant.put_products_id id body file w) =
    Return {| Variant.status := 200;
              Variant.body := Variant.json_product "Product updated successfully!" updated |} /\
  products (db (snd (Variant.put_products_id id body file w))) =
    map (fun p =>
           if p_id p =? id
           then {| p_id := p_id p; p_name := sql_param name; p_price := priceNum;
                   p_stock := stockNum; p_category := sql_param (p_category updated);
                   p_description := sql_param (p_description updated);
                   p_image_url := sql_param (p_image_url updated) |}
           else p)
        (products (db w)) /\
  emitted (snd (Variant.put_products_id id body file w)) =
    emitted w ++ (if stockNum <? 20 then [low_stock_alert w id name] else []).
Proof.
  intros F Ep Es name updated.
  assert (R : exists w',
             Variant.put_products_id id body file w =
               (Return {| Variant.status := 200;
                          Variant.body :=
                            Variant.json_product "Product updated successfully!" updated |},
                w') /\
             products (db w') =
               products (snd (UPDATE_product name priceNum stockNum (p_category updated)
                                (p_description updated) (p_image_url updated) id (db w))) /\
             emitted w' =
               emitted w ++ (if stockNum <? 20 then [low_stock_alert w id name] else [])).
  { unfold Variant.put_products_id, try_catch, bind.
    unfold query at 1, SELECT_products_WHERE_id. cbn [fst snd]. rewrite F, Ep, Es.
    unfold query. cbn [UPDATE_product fst snd].
    destruct (stockNum <? 20).
    - rewrite sendNotification_eq. eexists. split; [reflexivity |]. split; reflexivity.
    - eexists. split; [reflexivity |]. cbn. rewrite app_nil_r. split; reflexivity. }
  destruct R as (w' & -> & P & E). cbn [fst snd].
  split; [reflexivity |]. split; [rewrite P; reflexivity | exact E].
Qed.

End VariantUpdate.

Lemma variant_put_products_id_keeps_absent_fields_witness :
  map p_name
    (products
       (db (snd (Variant.put_products_id 1
                   {| Variant.b_name := Js.undefined; Variant.b_price := Variant.absent;
                      Variant.b_stock := Variant.number 3;
                      Variant.b_category := Js.undefined;
                      Variant.b_description := Js.undefined |}
                   None (Sample.shop 5))))) = [Js.str "Rose"].
Proof.
  pose proof (variant_put_products_id_keeps_absent_fields 1
                {| Variant.b_name := Js.undefined; Variant.b_price := Variant.absent;
                   Variant.b_stock := Variant.number 3;
                   Variant.b_category := Js.undefined;
                   Variant.b_description := Js.undefined |}
                None (Sample.shop 5) (Sample.rose 5) [] 10 3 eq_refl eq_refl eq_refl)
    as (_ & P & _).
  rewrite P. reflexivity.
Defined.

Lemma post_orders_total_witness :
  exists (placed : order Z) (lines : list (order_item Z)),
    orders (db (snd (post_orders (Sample.order_of [Sample.line 1 2; Sample.line 1 3])
                       (Sample.shop 10)))) = [placed] /\
    o_total placed = sum_totals (map oi_total lines).
Proof.
  destruct (post_orders_total (Sample.order_of [Sample.line 1 2; Sample.line 1 3])
              (Sample.shop 10) eq_refl) as (placed & lines & O & _ & T & _).
  exists placed, lines. split; [exact O | exact T].
Defined.



Lemma variant_post_products_validates_witness :
  exists error,
    Variant.post_products
      {| Variant.b_name := Js.str "Lily"; Variant.b_price := Variant.not_a_number;
         Variant.b_stock := Variant.number 30; Variant.b_category := Js.undefined;
         Variant.b_description := Js.undefined |}
      (Some Sample.image) (Sample.shop 25) =
    (Return {| Variant.status := 400; Variant.body := Variant.json_error error |},
     Sample.shop 25).
Proof.
  apply (variant_post_products_validates
           {| Variant.b_name := Js.str "Lily"; Variant.b_price := Variant.not_a_number;
              Variant.b_stock := Variant.number 30; Variant.b_category := Js.undefined;
              Variant.b_description := Js.undefined |}
           (Some Sample.image) (Sample.shop 25)).
  right. left. intros n. discriminate.
Defined.

(** ** Notifications routes *)

Section NotificationRoutes.

Context {num : Type} `{JsNumber num}.

Implicit Types (st : Admin.store num) (l : list notification).

Lemma store_same st : Admin.set_shop (set_db (db (Admin.shop st)) (Admin.shop st)) st = st.
Proof. destruct st as [[d t tr e] us nu de cu]. reflexivity. Qed.

Lemma insert_by_id_desc_perm (n : notification) l :
  Permutation (Admin.insert_by_id_desc n l) (n :: l).
Proof.
  induction l as [| m l IH]; [reflexivity |]. cbn [Admin.insert_by_id_desc].
  destruct (n_id m <=? n_id n); [reflexivity |].
  rewrite IH. apply perm_swap.
Qed.

Lemma ORDER_BY_id_DESC_perm l : Permutation (Admin.ORDER_BY_id_DESC l) l.
Proof.
  induction l as [| n l IH]; [reflexivity |]. cbn.
  rewrite insert_by_id_desc_perm. now constructor.
Qed.

Lemma insert_by_id_desc_sorted (n : notification) l :
  StronglySorted newer l -> StronglySorted newer (Admin.insert_by_id_desc n l).
Proof.
  induction 1 as [| m l S IH F]; cbn [Admin.insert_by_id_desc].
  - repeat constructor.
  - destruct (Z.leb_spec (n_id m) (n_id n)) as [L | L].
    + constructor; [constructor; assumption |].
      constructor; [exact L |].
      eapply Forall_impl; [| exact F]. unfold newer. intros a Ha. lia.
    + constructor; [exact IH |].
      apply (Permutation_Forall (Permutation_sym (insert_by_id_desc_perm n l))).
      constructor; [unfold newer; lia | exact F].
Qed.

Lemma ORDER_BY_id_DESC_sorted l : StronglySorted newer (Admin.ORDER_BY_id_DESC l).
Proof.
  induction l as [| n l IH]; [constructor |]. cbn. now apply insert_by_id_desc_sorted.
Qed.

Lemma sorted_app_newer l l' (a b : notification) :
  StronglySorted newer (l ++ l') -> In a l -> In b l' -> newer a b.
Proof.
  induction l as [| x l IH]; intros S Ha Hb; [inversion Ha |].
  cbn in S. apply StronglySorted_inv in S as [S F]. destruct Ha as [-> | Ha].
  - rewrite Forall_forall in F. apply F. apply in_or_app. now right.
  - now apply IH.
Qed.

Lemma get_notifications_eq st :
  Admin.get_notifications st =
  (Return (Admin.res_json
             (Admin.json_notifications
                (firstn 20 (Admin.ORDER_BY_id_DESC (notifications (db (Admin.shop st))))))),
   st).
Proof.
  unfold Admin.get_notifications, Admin.try_catch, Admin.bind, Admin.db_query.
  cbn. rewrite store_same. reflexivity.
Qed.

(** X13.  The notification listing changes nothing and answers with rows of
    the table, at most 20, by decreasing id: every row it leaves out has an
    id that is not above the id of any row it lists, and it leaves none out
    when the table has at most 20 rows. *)
Theorem get_notifications_latest st :
  exists results,
    Admin.get_notifications st =
      (Return (Admin.res_json (Admin.json_notifications results)), st) /\
    (List.length results <= 20)%nat /\
    List.length results = Nat.min 20 (List.length (notifications (db (Admin.shop st)))) /\
    StronglySorted newer results /\
    (forall n, In n results -> In n (notifications (db (Admin.shop st)))) /\
    (forall n m, In n results -> In m (notifications (db (Admin.shop st))) ->
                 ~ In m results -> newer n m).
Proof.
  rewrite get_notifications_eq. eexists. split; [reflexivity |].
  set (sorted := Admin.ORDER_BY_id_DESC (notifications (db (Admin.shop st)))).
  pose proof (ORDER_BY_id_DESC_perm (notifications (db (Admin.shop st)))) as P.
  pose proof (ORDER_BY_id_DESC_sorted (notifications (db (Admin.shop st)))) as S.
  fold sorted in P, S. rewrite <- (firstn_skipn 20 sorted) in S.
  split; [apply firstn_le_length |].
  split; [rewrite length_firstn, (Permutation_length P); reflexivity |].
  split.
  - clear - S. revert S. generalize (skipn 20 sorted).
    induction (firstn 20 sorted) as [| x l IH]; intros l' S; [constructor |].
    cbn in S. apply StronglySorted_inv in S as [S F]. constructor; [now apply (IH l') |].
    apply Forall_app in F. apply F.
  - split.
    + intros n Hn. apply (Permutation_in _ P).
      rewrite <- (firstn_skipn 20 sorted). apply in_or_app. now left.
    + intros n m Hn Hm Hnot. apply (sorted_app_newer _ _ _ _ S Hn).
      apply (Permutation_in _ (Permutation_sym P)) in Hm.
      rewrite <- (firstn_skipn 20 sorted) in Hm. apply in_app_or in Hm as [Hm | Hm];
        [contradiction | exact Hm].
Qed.



Lemma mark_twice (id : Z) l :
  map (fun n => if n_id n =? id then read n else n)
      (map (fun n => if n_id n =? id then read n else n) l) =
  map (fun n => if n_id n =? id then read n else n) l.
Proof.
  rewrite map_map. apply map_ext. intros n.
  destruct (n_id n =? id) eqn:E; [cbn [read n_id] | ]; rewrite E; reflexivity.
Qed.

Lemma delete_twice (id : Z) l :
  filter (fun n => negb (n_id n =? id)) (filter (fun n => negb (n_id n =? id)) l) =
  filter (fun n => negb (n_id n =? id)) l.
Proof.
  induction l as [| n l IH]; [reflexivity |]. cbn [filter].
  destruct (negb (n_id n =? id)) eqn:E; [| exact IH].
  cbn [filter]. rewrite E, IH. reflexivity.
Qed.

Lemma mark_absent (id : Z) l :
  ~ In id (map n_id l) -> map (fun n => if n_id n =? id then read n else n) l = l.
Proof.
  intros N. rewrite <- (map_id l) at 2. apply map_ext_in. intros n Hn.
  destruct (Z.eqb_spec (n_id n) id) as [E |]; [| reflexivity].
  exfalso. apply N. rewrite <- E. now apply in_map.
Qed.

Lemma delete_absent (id : Z) l :
  ~ In id (map n_id l) -> filter (fun n => negb (n_id n =? id)) l = l.
Proof.
  induction l as [| n l IH]; intros N; [reflexivity |]. cbn [filter map In] in *.
  destruct (Z.eqb_spec (n_id n) id) as [E |]; [tauto |]. cbn [negb].
  rewrite IH; [reflexivity | tauto].
Qed.

Lemma put_notifications_id_read_eq (id : Z) st :
  Admin.put_notifications_id_read id st =
  (Return (Admin.res_json (Admin.json_message "Notification marked as read!")),
   Admin.set_shop
     (set_db
        (Admin.set_notifications
           (map (fun n => if n_id n =? id then read n else n)
                (notifications (db (Admin.shop st))))
           (db (Admin.shop st)))
        (Admin.shop st))
     st).
Proof. reflexivity. Qed.

Lemma delete_notifications_id_eq (id : Z) st :
  Admin.delete_notifications_id id st =
  (Return (Admin.res_json (Admin.json_message "Notification deleted!")),
   Admin.set_shop
     (set_db
        (Admin.set_notifications
           (filter (fun n => negb (n_id n =? id)) (notifications (db (Admin.shop st))))
           (db (Admin.shop st)))
        (Admin.shop st))
     st).
Proof. reflexivity. Qed.

Lemma set_notifications_same (d : database num) :
  Admin.set_notifications (notifications d) d = d.
Proof. destruct d. reflexivity. Qed.

(** X15.  Marking a notification as read and deleting a notification are
    always answered 200, whether or not a row has the id.  Marking sets the
    read flag of the rows with that id and keeps every other row, in place;
    deleting removes exactly the rows with that id.  Doing either a second
    time changes nothing more, and on an id that no row has either leaves
    the store as it was. *)
Theorem notification_writes (id : Z) st :
  let marked := Admin.put_notifications_id_read id st in
  let deleted := Admin.delete_notifications_id id st in
  fst marked = Return (Admin.res_json (Admin.json_message "Notification marked as read!")) /\
  notifications (db (Admin.shop (snd marked))) =
    map (fun n => if n_id n =? id then read n else n) (notifications (db (Admin.shop st))) /\
  snd (Admin.put_notifications_id_read id (snd marked)) = snd marked /\
  fst deleted = Return (Admin.res_json (Admin.json_message "Notification deleted!")) /\
  notifications (db (Admin.shop (snd deleted))) =
    filter (fun n => negb (n_id n =? id)) (notifications (db (Admin.shop st))) /\
  snd (Admin.delete_notifications_id id (snd deleted)) = snd deleted /\
  (~ In id (map n_id (notifications (db (Admin.shop st)))) ->
   snd marked = st /\ snd deleted = st).
Proof.
  intros marked deleted. subst marked deleted.
  rewrite !put_notifications_id_read_eq, !delete_notifications_id_eq. cbn [fst snd].
  split; [reflexivity |]. split; [reflexivity |]. split.
  { unfold Admin.set_shop, set_db, Admin.set_notifications.
    cbn [Admin.shop db notifications]. rewrite mark_twice. reflexivity. }
  split; [reflexivity |]. split; [reflexivity |]. split.
  { unfold Admin.set_shop, set_db, Admin.set_notifications.
    cbn [Admin.shop db notifications]. rewrite delete_twice. reflexivity. }
  intros N. rewrite (mark_absent id _ N), (delete_absent id _ N).
  rewrite set_notifications_same, store_same. split; reflexivity.
Qed.

End NotificationRoutes.


(** ** Product deletion *)

Section SplitFacts.

Import JsSplit.

Lemma split_nonempty (s : string) (c : ascii) : split s c <> [].
Proof.
  destruct s as [| a s]; cbn [split]; [discriminate |].
  destruct (Ascii.eqb a c); [discriminate |]. destruct (split s c); discriminate.
Qed.

Lemma split_free_of (s : string) (c : ascii) : free_of c s = true -> split s c = [s].
Proof.
  induction s as [| a s IH]; [reflexivity |]. cbn [free_of split].
  intros F. apply andb_true_iff in F as [Fa Fs]. apply negb_true_iff in Fa.
  rewrite Fa, (IH Fs). reflexivity.
Qed.

(** Splitting around a separator splits both sides. *)
Lemma split_app_sep (a b : string) (c : ascii) :
  split (a ++ String c b) c = (split a c ++ split b c)%list.
Proof.
  induction a as [| x a IH]; cbn [String.append split].
  - now rewrite Ascii.eqb_refl.
  - destruct (Ascii.eqb x c); [now rewrite IH |].
    rewrite IH. pose proof (split_nonempty a c) as N.
    destruct (split a c) as [| part parts]; [contradiction | reflexivity].
Qed.

Lemma last_app_nonempty (l l' : list string) (d : string) :
  l' <> [] -> last (l ++ l') d = last l' d.
Proof.
  intros N. induction l as [| x l IH]; [reflexivity |].
  rewrite <- app_comm_cons. destruct (l ++ l')%list as [| y m] eqn:E.
  - destruct l; [cbn in E; contradiction | discriminate].
  - exact IH.
Qed.

(** X18.  The public id the product deletion derives from an image URL is
    the folder name products, a slash, and the last path segment of the URL
    up to its first dot: the directories of the URL are not looked at, and
    everything after the first dot of the file name is dropped. *)
Theorem publicId_of_url (dir name rest : string) :
  free_of "/" name = true ->
  free_of "." name = true ->
  free_of "/" rest = true ->
  publicId_of (dir ++ "/" ++ name ++ "." ++ rest) = ("products/" ++ name)%string /\
  publicId_of (dir ++ "/" ++ name) = ("products/" ++ name)%string.
Proof.
  intros Fs Fd Fr. unfold publicId_of.
  assert (Ffile : free_of "/" (name ++ "." ++ rest) = true).
  { clear Fd. induction name as [| a name IH]; [exact Fr |].
    cbn [free_of String.append] in *. apply andb_true_iff in Fs as [Fa Fs].
    rewrite Fa. now apply IH. }
  change (dir ++ "/" ++ name ++ "." ++ rest)%string
    with (dir ++ String "/" (name ++ String "." rest))%string.
  change (dir ++ "/" ++ name)%string with (dir ++ String "/" name)%string.
  rewrite !split_app_sep, !last_app_nonempty by apply split_nonempty.
  change (name ++ String "." rest)%string with (name ++ "." ++ rest)%string.
  rewrite (split_free_of _ _ Ffile), (split_free_of _ _ Fs). cbn [last].
  change (name ++ "." ++ rest)%string with (name ++ String "." rest)%string.
  rewrite split_app_sep, !(split_free_of _ _ Fd). split; reflexivity.
Qed.

End SplitFacts.

Lemma publicId_of_url_witness :
  JsSplit.publicId_of "https://res.cloudinary.com/demo/image/upload/v17/products/rose.min.png"
  = "products/rose".
Proof.
  apply (publicId_of_url "https://res.cloudinary.com/demo/image/upload/v17/products"
           "rose" "min.png"); reflexivity.
Defined.

Section ProductDeletion.

Context {num : Type} `{JsNumber num}.

Implicit Types (st : Admin.store num).

Lemma delete_removes_id (id : Z) (ps : list (product num)) :
  ~ In id (map p_id (filter (fun p => negb (p_id p =? id)) ps)).
Proof.
  intros C. apply in_map_iff in C as (p & E & Hp). apply filter_In in Hp as [_ Hp].
  rewrite E, Z.eqb_refl in Hp. discriminate.
Qed.

(** The tables after a deletion, with the image store answering. *)
Lemma delete_products_id_db (id : Z) st :
  Admin.cloudinary_up st = true ->
  db (Admin.shop (snd (Admin.delete_products_id id st))) =
  match filter (fun p => p_id p =? id) (products (db (Admin.shop st))) with
  | [] => db (Admin.shop st)
  | _ :: _ => snd (Admin.DELETE_FROM_products id (db (Admin.shop st)))
  end.
Proof.
  intros Up. unfold Admin.delete_products_id, Admin.try_catch, Admin.bind.
  unfold Admin.db_query at 1. cbn [SELECT_products_WHERE_id fst snd]. rewrite store_same.
  destruct (filter (fun p => p_id p =? id) (products (db (Admin.shop st)))) as [| row others];
    [reflexivity |].
  destruct (p_image_url row) as [| | url]; try reflexivity.
  destruct (String.eqb url EmptyString); [reflexivity |].
  unfold Admin.cloudinary_uploader_destroy. rewrite Up. reflexivity.
Qed.

(** X16.  Deleting a product that does not exist is answered 404 and
    changes nothing.  Deleting one that exists, with the image store
    answering, is answered 200: every row with that id leaves the catalogue,
    the other products, the orders, the order lines and the notifications
    stay as they were, and the image store is asked to destroy one public
    id, derived from the stored image URL, or none when the row has no image
    URL. *)
Theorem delete_products_id_effect (id : Z) st :
  (filter (fun p => p_id p =? id) (products (db (Admin.shop st))) = [] ->
   Admin.delete_products_id id st =
   (Return (Admin.res_status_json 404 (Admin.json_error "Product not found")), st)) /\
  (forall (row : product num) (others : list (product num)),
      filter (fun p => p_id p =? id) (products (db (Admin.shop st))) = row :: others ->
      Admin.cloudinary_up st = true ->
      let st' := snd (Admin.delete_products_id id st) in
      fst (Admin.delete_products_id id st) =
        Return (Admin.res_json (Admin.json_message "Product deleted successfully")) /\
      products (db (Admin.shop st')) =
        filter (fun p => negb (p_id p =? id)) (products (db (Admin.shop st))) /\
      ~ In id (map p_id (products (db (Admin.shop st')))) /\
      orders (db (Admin.shop st')) = orders (db (Admin.shop st)) /\
      order_items (db (Admin.shop st')) = order_items (db (Admin.shop st)) /\
      notifications (db (Admin.shop st')) = notifications (db (Admin.shop st)) /\
      Admin.destroyed st' = Admin.destroyed st ++ destroyed_for row).
Proof.
  split.
  - intros F. unfold Admin.delete_products_id, Admin.try_catch, Admin.bind, Admin.db_query.
    cbn [SELECT_products_WHERE_id fst snd]. rewrite F, store_same. reflexivity.
  - intros row others F Up st'.
    assert (R : exists st1,
               Admin.delete_products_id id st =
                 (Return (Admin.res_json (Admin.json_message "Product deleted successfully")),
                  st1) /\
               db (Admin.shop st1) = snd (Admin.DELETE_FROM_products id (db (Admin.shop st))) /\
               Admin.destroyed st1 = Admin.destroyed st ++ destroyed_for row).
    { unfold Admin.delete_products_id, Admin.try_catch, Admin.bind.
      unfold Admin.db_query at 1. cbn [SELECT_products_WHERE_id fst snd]. rewrite F, store_same.
      unfold destroyed_for. destruct (p_image_url row) as [| | url].
      - eexists. split; [reflexivity |]. cbn. now rewrite app_nil_r.
      - eexists. split; [reflexivity |]. cbn. now rewrite app_nil_r.
      - destruct (String.eqb url EmptyString).
        + eexists. split; [reflexivity |]. cbn. now rewrite app_nil_r.
        + unfold Admin.cloudinary_uploader_destroy. rewrite Up.
          eexists. split; [reflexivity |]. cbn. split; reflexivity. }
    destruct R as (st1 & R & D & X). subst st'. rewrite R. cbn [fst snd]. rewrite D.
    split; [reflexivity |]. split; [reflexivity |].
    split; [apply delete_removes_id |]. repeat split. exact X.
Qed.

(** X17.  When the image store does not answer, deleting a product that
    has an image URL is answered 500 and changes nothing: the product stays
    in the catalogue.  The variant of the route deletes the product all the
    same and answers 200. *)
Theorem delete_products_id_image_store_down (id : Z) st (row : product num)
    (others : list (product num)) (url : string) :
  filter (fun p => p_id p =? id) (products (db (Admin.shop st))) = row :: others ->
  p_image_url row = Js.str url ->
  url <> EmptyString ->
  Admin.cloudinary_up st = false ->
  Admin.delete_products_id id st =
    (Return (Admin.res_status_json 500 (Admin.json_error "Failed to delete product")), st) /\
  fst (Admin.variant_delete_products_id id st) =
    Return (Admin.res_json (Admin.json_message "Product deleted successfully!")) /\
  products (db (Admin.shop (snd (Admin.variant_delete_products_id id st)))) =
    filter (fun p => negb (p_id p =? id)) (products (db (Admin.shop st))) /\
  Admin.destroyed (snd (Admin.variant_delete_products_id id st)) = Admin.destroyed st.
Proof.
  intros F I U Down. apply String.eqb_neq in U.
  assert (V : exists st1,
             Admin.variant_delete_products_id id st =
               (Return (Admin.res_json (Admin.json_message "Product deleted successfully!")),
                st1) /\
             products (db (Admin.shop st1)) =
               filter (fun p => negb (p_id p =? id)) (products (db (Admin.shop st))) /\
             Admin.destroyed st1 = Admin.destroyed st).
  { unfold Admin.variant_delete_products_id, Admin.try_catch, Admin.bind.
    unfold Admin.db_query at 1. cbn [SELECT_products_WHERE_id fst snd].
    rewrite F, store_same, I, U. unfold Admin.cloudinary_uploader_destroy. rewrite Down.
    eexists. split; [reflexivity |]. cbn. split; reflexivity. }
  destruct V as (st1 & -> & P & X). cbn [fst snd]. split; [| repeat split; assumption].
  unfold Admin.delete_products_id, Admin.try_catch, Admin.bind.
  unfold Admin.db_query at 1. cbn [SELECT_products_WHERE_id fst snd].
  rewrite F, store_same, I, U. unfold Admin.cloudinary_uploader_destroy. rewrite Down.
  reflexivity.
Qed.

End ProductDeletion.

Lemma delete_products_id_effect_witness :
  Admin.delete_products_id 7 (SampleStore.store 25 true) =
    (Return (Admin.res_status_json 404 (Admin.json_error "Product not found")),
     SampleStore.store 25 true) /\
  Admin.destroyed (snd (Admin.delete_products_id 1 (SampleStore.store 25 true))) =
    ["products/rose"].
Proof.
  split.
  - apply (proj1 (delete_products_id_effect 7 (SampleStore.store 25 true))). reflexivity.
  - apply (proj2 (delete_products_id_effect 1 (SampleStore.store 25 true))
             (Sample.rose 25) [] eq_refl eq_refl).
Defined.

Lemma delete_products_id_image_store_down_witness :
  products (db (Admin.shop (snd (Admin.delete_products_id 1 (SampleStore.store 25 false)))))
    = [Sample.rose 25] /\
  products
    (db (Admin.shop (snd (Admin.variant_delete_products_id 1 (SampleStore.store 25 false)))))
    = [].
Proof.
  destruct (delete_products_id_image_store_down 1 (SampleStore.store 25 false)
              (Sample.rose 25) [] "https://res.cloudinary.com/demo/products/rose.png"
              eq_refl eq_refl)
    as (R & _ & P & _); [discriminate | reflexivity |].
  rewrite R, P. split; reflexivity.
Defined.

(** ** The order listing *)

Section OrderListing.

Context {num : Type} `{JsNumber num}.

Implicit Types (st : Admin.store num) (d : database num) (ps : list (product num)).

Lemma get_orders_eq st :
  Admin.get_orders st =
  (Return (Admin.res_json
             (Admin.json_orders (fst (Admin.SELECT_orders_joined (db (Admin.shop st)))))),
   st).
Proof.
  unfold Admin.get_orders, Admin.try_catch, Admin.bind, Admin.db_query.
  cbn [Admin.SELECT_orders_joined fst snd]. rewrite store_same. reflexivity.
Qed.

Lemma listed_orders_eq st :
  listed_orders (fst (Admin.get_orders st)) =
  fst (Admin.SELECT_orders_joined (db (Admin.shop st))).
Proof. rewrite get_orders_eq. reflexivity. Qed.

Lemma filter_absent_id ps (x : Z) :
  ~ In x (map p_id ps) -> filter (fun p => p_id p =? x) ps = [].
Proof.
  induction ps as [| p ps IH]; intros N; [reflexivity |]. cbn [filter map In] in *.
  destruct (Z.eqb_spec (p_id p) x); [tauto |]. apply IH. tauto.
Qed.

(** With unique ids, a line is joined to at most one product. *)
Lemma filter_unique_id ps (x : Z) :
  NoDup (map p_id ps) ->
  filter (fun p => p_id p =? x) ps = [] \/
  exists p, filter (fun p => p_id p =? x) ps = [p].
Proof.
  induction ps as [| p ps IH]; intros ND; [now left |].
  cbn [map] in ND. inversion ND as [| ? ? Np ND']; subst. cbn [filter].
  destruct (Z.eqb_spec (p_id p) x) as [E | E]; [| now apply IH].
  right. exists p. rewrite filter_absent_id; [reflexivity | now rewrite <- E].
Qed.

Lemma join_products_snapshot ps (o : order num) (oi : order_item num) :
  NoDup (map p_id ps) ->
  map snapshot (Admin.join_products ps o oi) =
  [snapshot (Admin.joined o (Some oi) None)].
Proof.
  intros ND. unfold Admin.join_products.
  destruct (filter_unique_id ps (oi_product_id oi) ND) as [-> | [p ->]]; reflexivity.
Qed.

Lemma map_flat_map {A B C : Type} (f : B -> C) (g : A -> list B) (l : list A) :
  map f (flat_map g l) = flat_map (fun x => map f (g x)) l.
Proof.
  induction l as [| x l IH]; [reflexivity |]. cbn [flat_map]. now rewrite map_app, IH.
Qed.

Lemma joined_snapshots d :
  NoDup (map p_id (products d)) ->
  map snapshot (fst (Admin.SELECT_orders_joined d)) = snapshots_of d.
Proof.
  intros ND. unfold Admin.SELECT_orders_joined, snapshots_of. cbn [fst].
  rewrite map_flat_map. apply flat_map_ext. intros o.
  destruct (filter (fun oi => oi_order_id oi =? o_id o) (order_items d)) as [| l ls];
    [reflexivity |].
  generalize (l :: ls). intros lines. rewrite map_flat_map.
  induction lines as [| oi lines IHl]; [reflexivity |].
  cbn [flat_map map]. rewrite IHl, (join_products_snapshot _ _ _ ND). reflexivity.
Qed.

Lemma rows_without_product d (id : Z) (r : Admin.order_row num) :
  filter (fun p => p_id p =? id) (products d) = [] ->
  In r (fst (Admin.SELECT_orders_joined d)) ->
  Admin.r_product_id r = Some id ->
  Admin.r_image_url r = Js.null /\ Admin.r_category r = Js.null.
Proof.
  intros F Hr Hid. unfold Admin.SELECT_orders_joined in Hr. cbn [fst] in Hr.
  apply in_flat_map in Hr as (o & _ & Hr).
  destruct (filter (fun oi => oi_order_id oi =? o_id o) (order_items d)) as [| l ls].
  - destruct Hr as [<- | []]. discriminate.
  - apply in_flat_map in Hr as (oi & _ & Hr). unfold Admin.join_products in Hr.
    destruct (filter (fun p => p_id p =? oi_product_id oi) (products d)) as [| q qs] eqn:Fq.
    + destruct Hr as [<- | []]. split; reflexivity.
    + exfalso. apply in_map_iff in Hr as (p & <- & Hp). cbn in Hid. injection Hid as Hid.
      rewrite Hid, F in Fq. discriminate.
Qed.

Lemma NoDup_filter_ids ps (f : product num -> bool) :
  NoDup (map p_id ps) -> NoDup (map p_id (filter f ps)).
Proof.
  induction ps as [| p ps IH]; intros ND; [constructor |].
  cbn [map] in ND. inversion ND as [| ? ? Np ND']; subst. cbn [filter].
  destruct (f p); [| now apply IH]. cbn [map]. constructor; [| now apply IH].
  intros C. apply Np. apply in_map_iff in C as (q & E & Hq).
  apply filter_In in Hq as [Hq _]. rewrite <- E. now apply in_map.
Qed.

(** X19.  With unique product ids and the image store answering, deleting
    a product leaves the order listing with the same rows in all the columns
    that come from the orders and their lines (order, customer, total,
    payment mode, status, product id, product name, quantity, price, line
    total); the lines of the deleted product are still listed, with a NULL
    image and a NULL category. *)
Theorem delete_products_id_keeps_order_history (id : Z) st :
  NoDup (map p_id (products (db (Admin.shop st)))) ->
  Admin.cloudinary_up st = true ->
  let before := listed_orders (fst (Admin.get_orders st)) in
  let after :=
    listed_orders (fst (Admin.get_orders (snd (Admin.delete_products_id id st)))) in
  map snapshot after = map snapshot before /\
  (forall r, In r after -> Admin.r_product_id r = Some id ->
             Admin.r_image_url r = Js.null /\ Admin.r_category r = Js.null).
Proof.
  intros ND Up before after. subst before after. rewrite !listed_orders_eq.
  destruct (filter (fun p => p_id p =? id) (products (db (Admin.shop st))))
    as [| row others] eqn:F.
  - rewrite (delete_products_id_db id st Up), F.
    split; [reflexivity |]. intros r. now apply rows_without_product.
  - rewrite (delete_products_id_db id st Up), F.
    cbn [Admin.DELETE_FROM_products snd]. split.
    + rewrite !joined_snapshots; [reflexivity | exact ND | now apply NoDup_filter_ids].
    + intros r. apply rows_without_product. apply filter_absent_id.
      apply delete_removes_id.
Qed.

End OrderListing.

Lemma delete_products_id_keeps_order_history_witness :
  let st := Admin.set_shop
              (snd (post_orders (Sample.order_of [Sample.line 1 10]) (Sample.shop 25)))
              (SampleStore.store 25 true) in
  map snapshot
    (listed_orders (fst (Admin.get_orders (snd (Admin.delete_products_id 1 st))))) =
  [(1, Js.str "Ana", 100, Js.str "cash", Js.str "pending",
    Some 1, Js.str "Rose", Some 10, Some 10, Some 100)].
Proof.
  cbv zeta.
  rewrite (proj1 (delete_products_id_keeps_order_history 1
                    (Admin.set_shop
                       (snd (post_orders (Sample.order_of [Sample.line 1 10]) (Sample.shop 25)))
                       (SampleStore.store 25 true))
                    ltac:(repeat constructor; intros []) eq_refl)).
  reflexivity.
Defined.

(** ** Users *)

Section Users.

Context {num : Type} `{JsNumber num}.

Implicit Types (st : Admin.store num) (body : Admin.user_body).

Lemma set_users_same st : Admin.set_users (Admin.users st) (Admin.next_user_id st) st = st.
Proof. destruct st. reflexivity. Qed.

Lemma get_users_eq st :
  Admin.get_users st =
  (Return (Admin.res_json (Admin.json_users (map Admin.view_of (Admin.users st)))), st).
Proof.
  unfold Admin.get_users, Admin.try_catch, Admin.bind, Admin.users_query.
  cbn [fst snd]. rewrite set_users_same. reflexivity.
Qed.

Lemma post_users_eq body st :
  Admin.post_users body st =
  (Return (Admin.res_json (Admin.json_user_created "User created!" (Admin.next_user_id st))),
   Admin.set_users
     (Admin.users st ++
        [{| Admin.u_id := Admin.next_user_id st;
            Admin.u_name := sql_param (Admin.b_name body);
            Admin.u_email := sql_param (Admin.b_email body);
            Admin.u_contact_number :=
              sql_param (Js.or (Admin.b_contact_number body) Js.null);
            Admin.u_role := sql_param (Admin.b_role body);
            Admin.u_password := sql_param (Admin.b_password body) |}])
     (Admin.next_user_id st + 1) st).
Proof. reflexivity. Qed.

(** X20.  Creating a user is answered with the next user id; the user
    listing then shows the users it showed before, followed by the new one
    under that id with the name, email and role sent and with a NULL contact
    number when none, or an empty one, was sent.  The listing is the same
    whatever the passwords stored. *)
Theorem post_users_then_get_users body st :
  let created := Admin.post_users body st in
  fst created =
    Return (Admin.res_json (Admin.json_user_created "User created!" (Admin.next_user_id st))) /\
  fst (Admin.get_users (snd created)) =
    Return (Admin.res_json
              (Admin.json_users
                 (map Admin.view_of (Admin.users st) ++
                    [{| Admin.v_id := Admin.next_user_id st;
                        Admin.v_name := sql_param (Admin.b_name body);
                        Admin.v_email := sql_param (Admin.b_email body);
                        Admin.v_contact_number :=
                          if Js.truthy (Admin.b_contact_number body)
                          then Admin.b_contact_number body else Js.null;
                        Admin.v_role := sql_param (Admin.b_role body) |}]))) /\
  (forall st0 : Admin.store num,
      map Admin.view_of (Admin.users st0) = map Admin.view_of (Admin.users st) ->
      fst (Admin.get_users st0) = fst (Admin.get_users st)).
Proof.
  intros created. subst created. split; [reflexivity |]. split.
  - rewrite get_users_eq, post_users_eq. cbn [fst snd Admin.set_users Admin.users].
    rewrite map_app. cbn [map Admin.view_of Admin.u_id Admin.u_name Admin.u_email
                            Admin.u_contact_number Admin.u_role].
    do 4 f_equal. unfold Js.or.
    destruct (Admin.b_contact_number body) as [| | c]; cbn; try reflexivity.
    destruct (String.eqb c EmptyString); reflexivity.
  - intros st0 E. rewrite !get_users_eq. cbn [fst]. now rewrite E.
Qed.

Lemma put_users_id_eq (id : Z) body st :
  Admin.put_users_id id body st =
  (Return (Admin.res_json (Admin.json_message "User updated!")),
   Admin.set_users
     (fst (snd (Admin.UPDATE_user (Admin.b_name body) (Admin.b_email body)
                  (Js.or (Admin.b_contact_number body) Js.null) (Admin.b_role body)
                  (if Js.truthy (Admin.b_password body)
                   then Some (Admin.b_password body) else None)
                  id (Admin.users st) (Admin.next_user_id st))))
     (Admin.next_user_id st) st).
Proof. reflexivity. Qed.

(** X21.  A user update is always answered 200.  It keeps the ids of the
    users; sent without a password, or with an empty one, it leaves every
    stored password as it was; sent with a password, it stores that password
    on the rows with the id and on no other; and on an id that no user has
    it changes nothing. *)
Theorem put_users_id_password (id : Z) body st :
  let st' := snd (Admin.put_users_id id body st) in
  fst (Admin.put_users_id id body st) =
    Return (Admin.res_json (Admin.json_message "User updated!")) /\
  map Admin.u_id (Admin.users st') = map Admin.u_id (Admin.users st) /\
  (Js.truthy (Admin.b_password body) = false ->
   map Admin.u_password (Admin.users st') = map Admin.u_password (Admin.users st)) /\
  (Js.truthy (Admin.b_password body) = true ->
   map Admin.u_password (Admin.users st') =
   map (fun u => if Admin.u_id u =? id then Admin.b_password body else Admin.u_password u)
       (Admin.users st)) /\
  (~ In id (map Admin.u_id (Admin.users st)) -> st' = st).
Proof.
  intros st'. subst st'. rewrite put_users_id_eq. cbn [fst snd Admin.UPDATE_user].
  cbn [Admin.set_users Admin.users]. split; [reflexivity |].
  split; [| split; [| split]].
  - rewrite map_map. apply map_ext. intros u. destruct (Admin.u_id u =? id); reflexivity.
  - intros T. rewrite T, map_map. apply map_ext. intros u.
    destruct (Admin.u_id u =? id); reflexivity.
  - intros T. rewrite T, map_map. apply map_ext. intros u.
    destruct (Admin.u_id u =? id); [| reflexivity]. cbn.
    destruct (Admin.b_password body); (discriminate || reflexivity).
  - intros N.
    match goal with |- Admin.set_users (map ?f _) _ _ = _ =>
      assert (E : map f (Admin.users st) = Admin.users st) end.
    { rewrite <- (map_id (Admin.users st)) at 2. apply map_ext_in. intros u Hu.
      destruct (Z.eqb_spec (Admin.u_id u) id) as [E |]; [| reflexivity].
      exfalso. apply N. rewrite <- E. now apply in_map. }
    rewrite E. apply set_users_same.
Qed.

End Users.

Lemma put_users_id_password_witness :
  let st1 := snd (Admin.post_users (SampleStore.ana (Js.str "secret"))
                    (SampleStore.store 25 true)) in
  map Admin.u_password (Admin.users (snd (Admin.put_users_id 1 (SampleStore.ana Js.undefined) st1)))
    = [Js.str "secret"] /\
  map Admin.u_password
      (Admin.users (snd (Admin.put_users_id 1 (SampleStore.ana (Js.str "changed")) st1)))
    = [Js.str "changed"].
Proof.
  cbv zeta. split.
  - rewrite (proj1 (proj2 (proj2 (put_users_id_password 1 (SampleStore.ana Js.undefined)
                                    (snd (Admin.post_users (SampleStore.ana (Js.str "secret"))
                                            (SampleStore.store 25 true)))))) eq_refl).
    reflexivity.
  - rewrite (proj1 (proj2 (proj2 (proj2
               (put_users_id_password 1 (SampleStore.ana (Js.str "changed"))
                  (snd (Admin.post_users (SampleStore.ana (Js.str "secret"))
                          (SampleStore.store 25 true))))))) eq_refl).
    reflexivity.
Defined.

Lemma post_orders_snapshots_witness :
  exists (placed : order Z) (lines : list (order_item Z)),
    order_items
      (db (snd (post_orders (Sample.order_of [Sample.line 1 2; Sample.line 1 3])
                  (Sample.shop 10)))) = lines /\
    orders
      (db (snd (post_orders (Sample.order_of [Sample.line 1 2; Sample.line 1 3])
                  (Sample.shop 10)))) = [placed] /\
    o_status placed = Js.str "pending" /\
    List.length lines = 2%nat.
Proof.
  destruct (post_orders_snapshots (Sample.order_of [Sample.line 1 2; Sample.line 1 3])
              (Sample.shop 10) eq_refl)
    as (items & placed & lines & Hitems & _ & O & _ & S & _ & _ & OI & F2).
  exists placed, lines. split; [exact OI |]. split; [exact O |]. split; [exact S |].
  injection Hitems as <-. apply Forall2_length in F2. symmetry. exact F2.
Defined.
